(** * Self-update handover protocol of TesteUpdate

    A shallow embedding of the three Python sources:
    - [updates.py]    the stand-alone Updater process,
    - [AutoUpdate.py] trust bootstrap, update check and install handover,
    - [repo_init.py]  the publishing side: the release tag and the command line.

    Python statements become computations in a state-and-exception monad
    over an explicit world; calls into the operating system, the network
    and the tufup client are parameters of the model. *)

From stdpp Require Import base strings list gmap.
From Stdlib Require Import ZArith Lia.

Set Default Proof Using "Type".

(* ===================================================================== *)
(** * Python control flow: results, exceptions, the monad                  *)
(* ===================================================================== *)

(** The exception classes the three files can meet.  [KeyboardInterrupt]
    and [SystemExit] derive from [BaseException] only; all the others are
    subclasses of [Exception]. *)
Inductive exn : Type :=
  | FileNotFoundError
  | NotADirectoryError
  | FileExistsError
  | IsADirectoryError
  | SameFileError
  | PermissionError
  | URLError
  | ValueError
  | EOFError
  | IndexError
  | ClientError (tag : string)
  | KeyboardInterrupt
  | SystemExit (code : Z).

(** [isinstance(e, Exception)] *)
Definition is_Exception (e : exn) : bool :=
  match e with
  | KeyboardInterrupt | SystemExit _ => false
  | _ => true
  end.

Definition is_KeyboardInterrupt (e : exn) : bool :=
  match e with
  | KeyboardInterrupt => true
  | _ => false
  end.

(** Outcome of running a block: it returns, it raises, or the model ran
    out of loop fuel (a marker of the model, never caught by [except]). *)
Inductive result (A : Type) : Type :=
  | Ret (a : A)
  | Raise (e : exn)
  | OutOfFuel.
Arguments Ret {A} a.
Arguments Raise {A} e.
Arguments OutOfFuel {A}.

Section Monad.
Context {S : Type}.

Definition Py (A : Type) : Type := S → result A * S.

Definition ret {A} (a : A) : Py A := λ s, (Ret a, s).

Definition bind {A B} (m : Py A) (k : A → Py B) : Py B :=
  λ s, match m s with
       | (Ret a, s') => k a s'
       | (Raise e, s') => (Raise e, s')
       | (OutOfFuel, s') => (OutOfFuel, s')
       end.

Definition raise {A} (e : exn) : Py A := λ s, (Raise e, s).

Definition modify (f : S → S) : Py unit := λ s, (Ret tt, f s).

(** [try: m  except C as e: h e], for the classes [C] accepted by [catches] *)
Definition try_catch {A} (catches : exn → bool) (m : Py A) (h : exn → Py A) : Py A :=
  λ s, match m s with
       | (Raise e, s') => if catches e then h e s' else (Raise e, s')
       | r => r
       end.

(** [try: m  except Exception as e: h e] *)
Definition try_except {A} (m : Py A) (h : exn → Py A) : Py A :=
  try_catch is_Exception m h.

(** [if c: m]  with no [else] branch *)
Definition when (c : bool) (m : Py unit) : Py unit :=
  if c then m else ret tt.

(** [for x in xs: body x] *)
Fixpoint for_each {A} (xs : list A) (body : A → Py unit) : Py unit :=
  match xs with
  | [] => ret tt
  | x :: xs' => bind (body x) (λ _, for_each xs' body)
  end.
End Monad.
Arguments Py : clear implicits.

Declare Scope py_scope.
Delimit Scope py_scope with py.
Notation "'let*' x ':=' c1 'in' c2" := (bind c1 (λ x, c2))
  (at level 10, x binder, c1 at level 100, c2 at level 200) : py_scope.
Notation "c1 '>>' c2" := (bind c1 (λ _, c2))
  (at level 100, c2 at level 200, right associativity) : py_scope.
Open Scope py_scope.

(** How the interpreter ends a process once the top-level block is done. *)
Inductive termination : Type :=
  | Exited (code : Z)        (* fell off the end (0) or [sys.exit(code)] *)
  | Uncaught (e : exn)       (* traceback *)
  | Hang.                    (* the model's fuel ran out *)

Definition terminate {A} (r : result A) : termination :=
  match r with
  | Ret _ => Exited 0
  | Raise (SystemExit c) => Exited c
  | Raise e => Uncaught e
  | OutOfFuel => Hang
  end.

(** The status the operating system sees: a traceback gives 1. *)
Definition exit_status (t : termination) : option Z :=
  match t with
  | Exited c => Some c
  | Uncaught _ => Some 1%Z
  | Hang => None
  end.

(* ===================================================================== *)
(** * updates.py: the world of the Updater process                        *)
(* ===================================================================== *)

(** A file-system object: a regular file with its content, or a directory
    with its entries in listing order. *)
#[local] Unset Elimination Schemes.
Inductive node : Type :=
  | File (content : string)
  | Dir (entries : list (string * node)).
#[local] Set Elimination Schemes.

(** What the Updater prints, by source line. *)
Inductive message : Type :=
  | MsgUsage                    (* line 53 *)
  | MsgStart                    (* line 60 *)
  | MsgNoExtractDir             (* line 69 *)
  | MsgApplyError (e : exn)     (* line 76 *)
  | MsgDone.                    (* line 82 *)

(** Observable actions, each logged with the clock (milliseconds) at which
    it was issued.  [EvApply] is a ghost mark: [main] reached the call of
    [copy_update]. *)
Inductive event : Type :=
  | EvPrint (m : message)
  | EvSleep (ms : Z)
  | EvTaskkill (pid : Z)                 (* os.system("taskkill /PID pid /F") *)
  | EvSigterm (pid : Z)                  (* os.kill(pid, signal.SIGTERM) *)
  | EvProbe (pid : Z) (gone : bool)      (* os.kill(pid, 0); gone = OSError *)
  | EvApply
  | EvUnlink (dir name : string)
  | EvRmtree (dir name : string)
  | EvCopy2 (sdir sname ddir dname : string)
  | EvCopytree (sdir sname ddir dname : string)
  | EvCleanup (dir : string).

(** The store maps a resolved directory path to the tree found there; the
    paths that are keys denote unrelated places of the disk (none lies
    inside another).  A path [d / name] is the pair [(d, name)].  The
    clock counts milliseconds and moves only while the process sleeps. *)
Record world : Type := World {
  fs : gmap string node;
  clock : Z;
  trace : list (Z * event);
}.

(** What the process cannot decide by itself. *)
Record os_env : Type := OsEnv {
  is_windows : bool;                 (* platform.system() == "Windows" *)
  kill0_raises : Z → Z → bool;       (* os.kill(pid, 0) raises OSError at this clock *)
  py_int : string → option Z;        (* int(s); None is ValueError *)
  rmtree_leaves : list string → list (string * node) → option (list (string * node));
                                     (* shutil.rmtree(path, ignore_errors=True) on a
                                        directory with these entries: None when the
                                        directory is removed, else the entries that
                                        are left when the removal failed half-way *)
}.

Definition set_fs (f : gmap string node → gmap string node) (w : world) : world :=
  World (f (fs w)) (clock w) (trace w).

Definition emit (e : event) : Py world unit :=
  modify (λ w, World (fs w) (clock w) (trace w ++ [(clock w, e)])).

Definition print (m : message) : Py world unit := emit (EvPrint m).

Definition sys_exit {A} (code : Z) : Py world A := raise (SystemExit code).

(** [time.time()], in milliseconds *)
Definition time_time : Py world Z := λ w, (Ret (clock w), w).

(** [time.sleep(ms / 1000)] *)
Definition sleep (ms : Z) : Py world unit :=
  emit (EvSleep ms) >>
  modify (λ w, World (fs w) (clock w + ms) (trace w)).

(** ** Directory entries *)

Definition lookup_entry (name : string) (es : list (string * node)) : option node :=
  snd <$> find (λ e, bool_decide (e.1 = name)) es.

Definition remove_entry (name : string) (es : list (string * node)) : list (string * node) :=
  filter (λ e, e.1 ≠ name) es.

(** Writing an entry replaces its namesake where it stands.  Where a new
    name lands in the listing is the file system's business: the model
    puts it last, and the statements read a listing that was written to
    through [lookup_entry] only. *)
Fixpoint put_entry (name : string) (x : node) (es : list (string * node))
  : list (string * node) :=
  match es with
  | [] => [(name, x)]
  | (k, y) :: es' =>
      if decide (k = name) then (name, x) :: es' else (k, y) :: put_entry name x es'
  end.

(** The recursive copy made by [shutil.copytree]: directories are created
    afresh and files are copied one by one. *)
Fixpoint clone (n : node) : node :=
  match n with
  | File c => File c
  | Dir es => Dir (map (λ e, let '(k, x) := e in (k, clone x)) es)
  end.

(** ** pathlib and shutil on [d / name] *)

Definition stat (d name : string) (w : world) : option node :=
  match fs w !! d with
  | Some (Dir es) => lookup_entry name es
  | _ => None
  end.

(** [(d / name).exists()] *)
Definition path_exists (d name : string) : Py world bool :=
  λ w, (Ret (bool_decide (is_Some (stat d name w))), w).

(** [(d / name).is_file()] *)
Definition is_file (d name : string) : Py world bool :=
  λ w, (Ret (match stat d name w with Some (File _) => true | _ => false end), w).

Definition set_entries (d : string) (es : list (string * node)) : Py world unit :=
  modify (set_fs (λ m, <[d := Dir es]> m)).

(** [(d / name).unlink()] *)
Definition unlink (d name : string) : Py world unit :=
  emit (EvUnlink d name) >>
  λ w, match fs w !! d with
       | Some (Dir es) =>
           match lookup_entry name es with
           | Some (File _) => set_entries d (remove_entry name es) w
           | Some (Dir _) => (Raise IsADirectoryError, w)
           | None => (Raise FileNotFoundError, w)
           end
       | _ => (Raise FileNotFoundError, w)
       end.

(** [shutil.rmtree(d / name, ignore_errors=True)]: every failure is
    swallowed.  A missing path or a regular file makes rmtree fail at
    once; a directory that the host does not let it remove entirely stays,
    with the entries that are left. *)
Definition rmtree (env : os_env) (d name : string) : Py world unit :=
  emit (EvRmtree d name) >>
  λ w, match fs w !! d with
       | Some (Dir es) =>
           match lookup_entry name es with
           | Some (Dir sub) =>
               match rmtree_leaves env [d; name] sub with
               | None => set_entries d (remove_entry name es) w
               | Some kept => set_entries d (put_entry name (Dir kept) es) w
               end
           | _ => (Ret tt, w)
           end
       | _ => (Ret tt, w)
       end.

(** [shutil.copy2(sd / sname, dd / dname)].  [copyfile] refuses to copy a
    file onto itself, opens the source, then opens the destination for
    writing; when the destination is a directory the file goes inside it
    under the source's name. *)
Definition write_file (name c : string) (es : list (string * node))
  : result (list (string * node)) :=
  match lookup_entry name es with
  | Some (Dir _) => Raise IsADirectoryError
  | _ => Ret (put_entry name (File c) es)
  end.

Definition copy2 (sd sname dd dname : string) : Py world unit :=
  emit (EvCopy2 sd sname dd dname) >>
  λ w, match stat sd sname w with
       | None => (Raise FileNotFoundError, w)
       | Some (Dir _) => (Raise IsADirectoryError, w)
       | Some (File c) =>
           match fs w !! dd with
           | None => (Raise FileNotFoundError, w)
           | Some (File _) => (Raise NotADirectoryError, w)
           | Some (Dir des) =>
               match lookup_entry dname des with
               | Some (Dir sub) =>
                   match write_file sname c sub with
                   | Ret sub' => set_entries dd (put_entry dname (Dir sub') des) w
                   | Raise e => (Raise e, w)
                   | OutOfFuel => (OutOfFuel, w)
                   end
               | Some (File _) =>
                   if decide ((sd, sname) = (dd, dname)) then (Raise SameFileError, w)
                   else set_entries dd (put_entry dname (File c) des) w
               | None => set_entries dd (put_entry dname (File c) des) w
               end
           end
       end.

(** [shutil.copytree(sd / sname, dd / dname)]: lists the source, then
    [os.makedirs] the destination (which must not exist; a missing parent
    is created), then copies the entries. *)
Definition copytree (sd sname dd dname : string) : Py world unit :=
  emit (EvCopytree sd sname dd dname) >>
  λ w, match stat sd sname w with
       | None => (Raise FileNotFoundError, w)
       | Some (File _) => (Raise NotADirectoryError, w)
       | Some (Dir ses) =>
           match fs w !! dd with
           | None => set_entries dd [(dname, clone (Dir ses))] w
           | Some (File _) => (Raise NotADirectoryError, w)
           | Some (Dir des) =>
               match lookup_entry dname des with
               | Some _ => (Raise FileExistsError, w)
               | None => set_entries dd (put_entry dname (clone (Dir ses)) des) w
               end
           end
       end.

(** [d.iterdir()], as the list of entry names in listing order *)
Definition iterdir (d : string) : Py world (list string) :=
  λ w, match fs w !! d with
       | Some (Dir es) => (Ret (es.*1), w)
       | Some (File _) => (Raise NotADirectoryError, w)
       | None => (Raise FileNotFoundError, w)
       end.

(** [d.exists()] for a whole directory path *)
Definition dir_exists (d : string) : Py world bool :=
  λ w, (Ret (bool_decide (is_Some (fs w !! d))), w).

(** What [shutil.rmtree(d, ignore_errors=True)] leaves of the store: the
    directory is gone when the host lets it be removed entirely, and
    otherwise stays with the entries that are left. *)
Definition cleaned (env : os_env) (d : string) (m : gmap string node) : gmap string node :=
  match m !! d with
  | Some (Dir es) =>
      match rmtree_leaves env [d] es with
      | None => delete d m
      | Some kept => <[d := Dir kept]> m
      end
  | _ => m
  end.

(** [shutil.rmtree(d, ignore_errors=True)] for a whole directory path:
    it returns whatever happened. *)
Definition rmtree_dir (env : os_env) (d : string) : Py world unit :=
  emit (EvCleanup d) >>
  modify (set_fs (cleaned env d)).

(** ** The functions of updates.py *)

Section Updates.
Variable env : os_env.

(** lines 11-18; the [try ... except Exception: pass] swallows whatever
    the request answers, so only the request is recorded. *)
Definition kill_process (pid : Z) : Py world unit :=
  if is_windows env then emit (EvTaskkill pid) else emit (EvSigterm pid).

(** [os.kill(pid, 0)] on a PID that fits [pid_t]: [true] stands for the
    [OSError] branch. *)
Definition os_kill0 (pid : Z) : Py world bool :=
  λ w, let gone := kill0_raises env pid (clock w) in
       (Ret gone, World (fs w) (clock w) (trace w ++ [(clock w, EvProbe pid gone)])).

(** lines 23-28, the [while] loop; [true] when it was left by [return],
    [false] when its condition failed. *)
Fixpoint wait_loop (fuel : nat) (pid start timeout : Z) : Py world bool :=
  match fuel with
  | O => λ w, (OutOfFuel, w)
  | S fuel' =>
      let* now := time_time in
      if (now - start <? timeout)%Z then
        let* gone := os_kill0 pid in
        if gone then ret true
        else sleep 500 >> wait_loop fuel' pid start timeout
      else ret false
  end.

(** lines 21-29; [timeout] in milliseconds *)
Definition wait_process_end (fuel : nat) (pid timeout : Z) : Py world unit :=
  let* start := time_time in
  let* returned := wait_loop fuel pid start timeout in
  if returned then ret tt else kill_process pid.

(** lines 37-48, the body of the [for] loop *)
Definition copy_item (extract_dir destino name : string) : Py world unit :=
  let* present := path_exists destino name in
  when present (
    let* f := is_file destino name in
    if f then unlink destino name else rmtree env destino name) >>
  let* f := is_file extract_dir name in
  if f then copy2 extract_dir name destino name
  else copytree extract_dir name destino name.

(** lines 32-48 *)
Definition copy_update (extract_dir destino : string) : Py world unit :=
  let* items := iterdir extract_dir in
  for_each items (copy_item extract_dir destino).

(** lines 60-65, step 1 of [main]: announce, pause, end the old process;
    [wait_process_end(pid)] uses the default of 10 s. *)
Definition main_stop_old (fuel : nat) (pid : Z) : Py world unit :=
  print MsgStart >>
  sleep 2000 >>
  kill_process pid >>
  wait_process_end fuel pid 10000.

(** lines 67-83, steps 2 to 4 of [main]: validate, apply, clean up *)
Definition main_install (extract_dir destino : string) : Py world unit :=
  let* found := dir_exists extract_dir in
  when (negb found) (print MsgNoExtractDir >> sys_exit 1) >>
  emit EvApply >>
  try_except (copy_update extract_dir destino)
             (λ e, print (MsgApplyError e) >> sys_exit 1) >>
  rmtree_dir env extract_dir >>
  print MsgDone >>
  sys_exit 0.

(** lines 51-83 *)
Definition main (fuel : nat) (argv : list string) : Py world unit :=
  if (length argv <? 4)%nat then
    print MsgUsage >> sys_exit 1
  else
    match argv !! 1%nat, argv !! 2%nat, argv !! 3%nat with
    | Some a1, Some destino, Some extract_dir =>
        let* pid := (match py_int env a1 with
                     | Some n => ret n
                     | None => raise ValueError
                     end) in
        main_stop_old fuel pid >>
        main_install extract_dir destino
    | _, _, _ => raise IndexError
    end.

(** Running the script as a process. *)
Definition run_main (fuel : nat) (argv : list string) (w : world)
  : termination * world :=
  let '(r, w') := main fuel argv w in (terminate r, w').
End Updates.

(* ===================================================================== *)
(** * AutoUpdate.py: the world of the application                         *)
(* ===================================================================== *)

(** [packaging.version.Version]: the text it was parsed from and its
    [base_version]. *)
Record pkg_version : Type := PkgVersion {
  public : string;
  base_version : string;
}.

(** [tufup.common.TargetMeta], the release descriptor *)
Record target_meta : Type := TargetMeta {
  filename : string;
  version : pkg_version;
}.

(** A [pathlib.Path], by its parts; [p / name] appends a part. *)
Abbreviation pypath := (list string).

(** An element of the argument vector given to [subprocess.Popen] *)
Inductive arg : Type :=
  | StrOfPath (p : pypath)     (* str(path) *)
  | StrOfInt (n : Z).          (* str(int)  *)

Record app : Type := App {
  metadata : gmap string string;       (* the regular files of metadata_dir, by name *)
  disk : gset pypath;                  (* the other paths that exist *)
  target_base_url : string;            (* client._target_base_url *)
  latest_meta : option target_meta;    (* self._latest_meta *)
  spawned : list (list arg);           (* processes started by Popen, oldest first *)
}.

Definition set_metadata (f : gmap string string → gmap string string) (a : app) : app :=
  App (f (metadata a)) (disk a) (target_base_url a) (latest_meta a) (spawned a).
Definition set_target_base_url (u : string) (a : app) : app :=
  App (metadata a) (disk a) u (latest_meta a) (spawned a).
Definition set_latest_meta (m : option target_meta) (a : app) : app :=
  App (metadata a) (disk a) (target_base_url a) m (spawned a).
Definition add_spawned (argv : list arg) (a : app) : app :=
  App (metadata a) (disk a) (target_base_url a) (latest_meta a) (spawned a ++ [argv]).

(** What the application gets from outside: the interpreter, the bundle,
    the network and the tufup client. *)
Record app_env : Type := AppEnv {
  frozen : bool;                          (* getattr(sys, "frozen", False) *)
  meipass_root : option (option string);  (* sys._MEIPASS set? then _MEIPASS/root.json, if it exists *)
  beside_root : option string;            (* root.json beside the executable or script, if it exists *)
  urlopen : string → option string;       (* urlopen(url).read(); None is URLError *)
  getpid : Z;                             (* os.getpid() *)
  popen_denied : bool;                    (* Popen raises instead of starting the child *)
  input_line : option string;             (* input(); None is EOFError *)
  client_new : string → string;           (* the base URL that Client(...) stores *)
  client_check : Py app (option target_meta);                 (* Client.check_for_updates *)
  client_download : (pypath → pypath → Py app unit) → Py app unit;
                                          (* Client.download_and_apply_update(install=...) *)
}.

(** [(self.metadata_dir / fname).exists()] *)
Definition md_exists (fname : string) : Py app bool :=
  λ a, (Ret (bool_decide (is_Some (metadata a !! fname))), a).

(** [(self.metadata_dir / fname).unlink()] *)
Definition md_unlink (fname : string) : Py app unit :=
  λ a, match metadata a !! fname with
       | Some _ => (Ret tt, set_metadata (delete fname) a)
       | None => (Raise FileNotFoundError, a)
       end.

(** [shutil.copy2(src, metadata_dir / fname)] and [write_bytes] alike *)
Definition md_write (fname content : string) : Py app unit :=
  modify (set_metadata (λ m, <[fname := content]> m)).

Definition mutable_files : list string :=
  ["timestamp.json"; "snapshot.json"; "targets.json"].

Section AutoUpdate.
Variable env : app_env.

(** lines 70-82: where a bundled root.json is looked for *)
Definition bundled_root : option string :=
  let attempt1 :=
    if frozen env then
      match meipass_root env with
      | Some (Some c) => Some c
      | _ => None
      end
    else None in
  match attempt1 with
  | Some c => Some c
  | None => beside_root env
  end.

(** lines 64-93 *)
Definition copy_bundled_root_if_available : Py app bool :=
  match bundled_root with
  | Some c =>
      let* dst_exists := md_exists "root.json" in
      when (negb dst_exists) (
        md_write "root.json" c >>
        let* vdst_exists := md_exists "1.root.json" in
        when (negb vdst_exists) (md_write "1.root.json" c)) >>
      ret true
  | None => ret false
  end.

(** lines 163-168 *)
Definition _download_metadata_file (fname metadata_target : string) : Py app unit :=
  let url := metadata_target +:+ fname in
  match urlopen env url with
  | Some content => md_write fname content
  | None => raise URLError
  end.

(** lines 137-140, and again lines 179-182 *)
Definition clear_mutable_metadata : Py app unit :=
  for_each mutable_files (λ fname,
    let* present := md_exists fname in
    when present (md_unlink fname)).

(** lines 129-161 *)
Definition _initialize_metadata (metadata_target : string) : Py app unit :=
  clear_mutable_metadata >>
  let* has_root := md_exists "root.json" in
  let* has_versioned := md_exists "1.root.json" in
  if has_root && has_versioned then ret tt
  else
    let* copied := copy_bundled_root_if_available in
    if copied then
      let* has_versioned := md_exists "1.root.json" in
      when (negb has_versioned) (_download_metadata_file "1.root.json" metadata_target)
    else
      for_each ["1.root.json"; "root.json"] (λ fname,
        _download_metadata_file fname metadata_target).

(** lines 100-126, after the directories are made *)
Definition AppUpdater_init (metadata_target target_base : string) : Py app unit :=
  _initialize_metadata metadata_target >>
  modify (set_target_base_url (client_new env target_base)).

(** line 189: the path segment of a release, [f"v{base_version}/"] *)
Definition version_segment (m : target_meta) : string :=
  "v" +:+ base_version (version m) +:+ "/".

(** lines 184-196: ask the client; on a newer release, adjust the URL *)
Definition query_client : Py app (option target_meta) :=
  let* latest := client_check env in
  match latest with
  | Some m =>
      modify (λ a, set_target_base_url (target_base_url a +:+ version_segment m) a) >>
      modify (set_latest_meta (Some m)) >>
      ret (Some m)
  | None =>
      modify (set_latest_meta None) >>
      ret None
  end.

(** lines 174-203 *)
Definition check_for_updates : Py app (option target_meta) :=
  try_except (clear_mutable_metadata >> query_client)
             (λ _, ret None).

(** lines 235-252 *)
Definition custom_install (src_dir dst_dir : pypath) : Py app unit :=
  let updater := dst_dir ++ ["updater.exe"] in
  let* found := (λ a, (Ret (bool_decide (updater ∈ disk a)), a)) in
  if negb found then raise FileNotFoundError
  else
    (if popen_denied env then raise PermissionError
     else modify (add_spawned [StrOfPath updater; StrOfInt (getpid env);
                               StrOfPath dst_dir; StrOfPath src_dir])) >>
    raise (SystemExit 0).

(** lines 206-227; [except SystemExit: raise] lets the exit through *)
Definition download_and_apply_update : Py app bool :=
  try_except (client_download env custom_install >> ret true)
             (λ _, ret false).

(** lines 285-288: install, then ask to restart *)
Definition update_apply : Py app unit :=
  let* applied := download_and_apply_update in
  when applied (
    (match input_line env with
     | Some _ => ret tt
     | None => raise EOFError
     end) >>
    raise (SystemExit 0)).

(** lines 272-297; [choice] is the constant "s" *)
Definition update (metadata_target target_base : string) : Py app unit :=
  try_catch (λ e, is_Exception e || is_KeyboardInterrupt e) (
    AppUpdater_init metadata_target target_base >>
    let* new_version := check_for_updates in
    match new_version with
    | Some _ => update_apply
    | None => ret tt
    end)
  (λ _, ret tt).
End AutoUpdate.

(* ===================================================================== *)
(** * AutoUpdate.py: where the application keeps its state                *)
(* ===================================================================== *)

(** The directories and the regular files that exist, by path. *)
Record tree : Type := Tree {
  dirs : gset pypath;
  files : gset pypath;
}.

(** What [get_runtime_paths] reads from the interpreter and the system. *)
Record runtime_env : Type := RuntimeEnv {
  rt_frozen : bool;                  (* getattr(sys, "frozen", False) *)
  rt_executable : pypath;            (* Path(sys.executable).resolve() *)
  rt_file : pypath;                  (* Path(__file__).resolve() *)
  rt_os_nt : bool;                   (* os.name == "nt" *)
  rt_darwin : bool;                  (* sys.platform == "darwin" *)
  rt_localappdata : option string;   (* os.environ.get("LOCALAPPDATA") *)
  rt_home : pypath;                  (* Path.home() *)
  rt_path : string → pypath;         (* Path(s) *)
  rt_join : pypath → string → pypath;
                                     (* p / s for a string of the caller; pathlib
                                        drops an empty s, splits s at its separators
                                        and lets an anchored s replace p *)
}.

(** [p.parent]: the anchor of a path is its own parent. *)
Definition parent (p : pypath) : pypath :=
  match p with
  | [] | [_] => p
  | _ => removelast p
  end.

(** The path itself and the directories above it, outermost first. *)
Fixpoint prefixes (p : pypath) : list pypath :=
  match p with
  | [] => []
  | x :: p' => [x] :: map (cons x) (prefixes p')
  end.

(** [p.mkdir(parents=True, exist_ok=True)]: an existing directory is
    accepted, a regular file at the path or above it makes [os.mkdir]
    fail, and otherwise the path is created with the missing parents. *)
Definition mkdir_p (p : pypath) : Py tree unit :=
  λ t, if decide (p ∈ dirs t) then (Ret tt, t)
       else if decide (p ∈ files t) then (Raise FileExistsError, t)
       else if decide (Exists (λ q, q ∈ files t) (prefixes p)) then (Raise NotADirectoryError, t)
       else (Ret tt, Tree (dirs t ∪ list_to_set (prefixes p)) (files t)).

Section RuntimePaths.
Variable rt : runtime_env.

(** lines 19-46; the literal names of the program are single parts *)
Definition get_runtime_paths (app_name : string) : Py tree (pypath * pypath) :=
  let executable_path := if rt_frozen rt then rt_executable rt else rt_file rt in
  let install_dir := parent executable_path in
  let user_base :=
    if rt_os_nt rt then
      let local_appdata :=
        match rt_localappdata rt with
        | Some s => if decide (s = "") then rt_home rt ++ ["AppData"; "Local"] else rt_path rt s
        | None => rt_home rt ++ ["AppData"; "Local"]
        end in
      rt_join rt local_appdata app_name
    else if rt_darwin rt then
      rt_join rt (rt_home rt ++ ["Library"; "Application Support"]) app_name
    else
      rt_join rt (rt_home rt ++ [".local"; "share"]) app_name in
  mkdir_p user_base >>
  ret (install_dir, user_base).
End RuntimePaths.

(** lines 49-61 *)
Definition ensure_dirs (user_base : pypath) : Py tree (pypath * pypath * pypath) :=
  let metadata_dir := user_base ++ ["metadata"] in
  let target_dir := user_base ++ ["downloads"] in
  let extract_dir := user_base ++ ["extracted"] in
  for_each [metadata_dir; target_dir; extract_dir] mkdir_p >>
  ret (metadata_dir, target_dir, extract_dir).

(** A frozen Windows run with LOCALAPPDATA set to the empty string; the
    names it joins are plain. *)
Definition windows_rt : runtime_env :=
  RuntimeEnv true ["C:\"; "Program Files"; "App"; "App.exe"] ["C:\"; "src"; "app.py"]
             true false (Some "") ["C:\"; "Users"; "u"] (λ s, [s]) (λ p s, p ++ [s]).

Definition bare_tree : tree := Tree {[ ["/"]; ["/"; "home"]; ["/"; "home"; "u"] ]} ∅.

(* ===================================================================== *)
(** * repo_init.py: where a release is published                          *)
(* ===================================================================== *)

(** lines 394 and 408: [tag = f"v{versao}"] *)
Definition release_tag (versao : string) : string := "v" +:+ versao.

(** ** The command line of repo_init.py

    The script keeps the application's name in the module global
    [APP_NAME] and works in the current directory.  The three commands
    that build the repository go through tufup and the compiler's
    output, so they are parameters of the model; the two that only
    print are modelled by what they print. *)
Module RepoInit.

(** What the script prints, by the statement that prints it. *)
Inductive message : Type :=
  | MsgHelp (app_name : option string)             (* lines 335-348 *)
  | MsgNeedAppName (comando : string)              (* lines 357-358 *)
  | MsgNeedVersion (comando : string)              (* lines 366-367 *)
  | MsgCompile (app_name : option string)          (* lines 305-317 *)
  | MsgSpecifyVersion (comando : string)           (* lines 381, 390, 404 *)
  | MsgBundleReady (bundle_dir : pypath)           (* line 386 *)
  | MsgInstructions (versao : string) (app_name : option string)  (* lines 280-300 *)
  | MsgUnknown (comando : string).                 (* lines 423-424 *)

Record publisher : Type := Publisher {
  APP_NAME : option string;        (* line 18: None until [main] sets it *)
  cwd : tree;                      (* tufup-repo, keystore, dist, bundles *)
  out : list message;              (* standard output *)
}.

Record script_env : Type := ScriptEnv {
  str_lower : string → string;                            (* str.lower *)
  criar_repositorio : Py publisher unit;                  (* lines 20-75 *)
  empacotar_app : string → Py publisher (option pypath);  (* lines 78-146 *)
  adicionar_versao :                                      (* lines 230-275 *)
    string → pypath → option string → Py publisher bool;
}.

Definition print (m : message) : Py publisher unit :=
  modify (λ p, Publisher (APP_NAME p) (cwd p) (out p ++ [m])).

Definition get_APP_NAME : Py publisher (option string) :=
  λ p, (Ret (APP_NAME p), p).

Definition set_APP_NAME (name : string) : Py publisher unit :=
  modify (λ p, Publisher (Some name) (cwd p) (out p)).

Definition sys_exit {A} (code : Z) : Py publisher A := raise (SystemExit code).

(** [sys.argv[i]] *)
Definition argv_at (argv : list string) (i : nat) : Py publisher string :=
  match argv !! i with
  | Some a => ret a
  | None => raise IndexError
  end.

(** lines 278-300 *)
Definition mostrar_instrucoes (versao : string) : Py publisher unit :=
  let* name := get_APP_NAME in
  print (MsgInstructions versao name).

(** lines 303-317 *)
Definition compilar_exe : Py publisher unit :=
  let* name := get_APP_NAME in
  print (MsgCompile name).

Section Script.
Variable env : script_env.

(** lines 355-370: which argument names the application *)
Definition main_app_name (argv : list string) (comando : string) : Py publisher unit :=
  if bool_decide (comando = "init" ∨ comando = "compile") then
    when (length argv <? 3)%nat (print (MsgNeedAppName comando) >> sys_exit 1) >>
    let* name := argv_at argv 2 in
    set_APP_NAME name
  else
    when (length argv <? 4)%nat (print (MsgNeedVersion comando) >> sys_exit 1) >>
    let* name := argv_at argv 3 in
    set_APP_NAME name.

(** lines 373-424: the command itself; a [Path] is always true, so
    [if bundle_dir] only tells a path from [None] *)
Definition main_dispatch (argv : list string) (comando : string) : Py publisher unit :=
  if decide (comando = "init") then
    criar_repositorio env
  else if decide (comando = "compile") then
    compilar_exe
  else if decide (comando = "pack") then
    when (length argv <? 3)%nat (print (MsgSpecifyVersion comando) >> sys_exit 1) >>
    let* versao := argv_at argv 2 in
    let* bundle_dir := empacotar_app env versao in
    match bundle_dir with
    | Some b => print (MsgBundleReady b)
    | None => ret tt
    end
  else if decide (comando = "add") then
    when (length argv <? 3)%nat (print (MsgSpecifyVersion comando) >> sys_exit 1) >>
    let* versao := argv_at argv 2 in
    let tag := release_tag versao in
    let* bundle_dir := empacotar_app env versao in
    match bundle_dir with
    | None => sys_exit 1
    | Some b =>
        let* ok := adicionar_versao env versao b (Some tag) in
        when ok (mostrar_instrucoes versao)
    end
  else if decide (comando = "full") then
    when (length argv <? 3)%nat (print (MsgSpecifyVersion comando) >> sys_exit 1) >>
    let* versao := argv_at argv 2 in
    let tag := release_tag versao in
    let* bundle_dir := empacotar_app env versao in
    match bundle_dir with
    | None => sys_exit 1
    | Some b =>
        let* ok := adicionar_versao env versao b (Some tag) in
        when (negb ok) (sys_exit 1) >>
        mostrar_instrucoes versao
    end
  else
    print (MsgUnknown comando).

(** lines 331-424 *)
Definition main (argv : list string) : Py publisher unit :=
  if (length argv <? 2)%nat then
    (let* name := get_APP_NAME in print (MsgHelp name)) >>
    sys_exit 1
  else
    let* a1 := argv_at argv 1 in
    let comando := str_lower env a1 in
    main_app_name argv comando >>
    main_dispatch argv comando.
End Script.

End RepoInit.


(* ===================================================================== *)
(** * Vocabulary of the statements                                         *)
(* ===================================================================== *)

Definition stamp (t : Z) (evs : list event) : list (Z * event) := pair t <$> evs.





(** C9 as stated: on a run that exits 0 the staged directory no longer
    exists. *)
Definition success_removes_staged_dir (env : os_env) (fuel : nat) (argv : list string)
    (w : world) : Prop :=
  (run_main env fuel argv w).1 = Exited 0 →
  ∀ extract_dir, argv !! 3%nat = Some extract_dir →
    fs (run_main env fuel argv w).2 !! extract_dir = None.

(** The termination request of [kill_process], by platform. *)
Definition kill_event (env : os_env) (pid : Z) : event :=
  if is_windows env then EvTaskkill pid else EvSigterm pid.

(** [k] polls that found the process alive, 500 ms apart from [t] on. *)
Fixpoint alive_polls (pid t : Z) (k : nat) : list (Z * event) :=
  match k with
  | O => []
  | S k' => (t, EvProbe pid false) :: (t, EvSleep 500) :: alive_polls pid (t + 500) k'
  end.

(** How the wait ends after [k] such polls: a probe that finds the process
    gone, or, once the 20 polls of the 10 s are used up, a second
    termination request. *)
Definition wait_ending (env : os_env) (pid t : Z) (k : nat) : list (Z * event) :=
  if decide (k = 20%nat) then [((t + 10000)%Z, kill_event env pid)]
  else [((t + 500 * Z.of_nat k)%Z, EvProbe pid true)].

(** Events that concern the old process or the clock. *)
Definition is_process_event (e : event) : bool :=
  match e with
  | EvSleep _ | EvTaskkill _ | EvSigterm _ | EvProbe _ _ => true
  | _ => false
  end.

(** Events issued by the file operations of Apply. *)
Definition is_fs_event (e : event) : bool :=
  match e with
  | EvUnlink _ _ | EvRmtree _ _ | EvCopy2 _ _ _ _ | EvCopytree _ _ _ _ => true
  | _ => false
  end.

(** A block that only works on files: the clock stands still, the log
    grows by file events, only [Exception]s are raised, and no place of
    the store becomes a regular file. *)
Definition fs_only {A} (m : Py world A) : Prop :=
  ∀ w r w', m w = (r, w') →
    clock w' = clock w
    ∧ (∃ evs, trace w' = trace w ++ stamp (clock w) evs ∧ Forall (λ e, is_fs_event e = true) evs)
    ∧ match r with
      | Ret _ => True
      | Raise e => is_Exception e = true
      | OutOfFuel => False
      end
    ∧ (∀ d c, fs w' !! d = Some (File c) → fs w !! d = Some (File c)).


(** A block that makes no place of the store disappear. *)
Definition keeps_places {A} (m : Py world A) : Prop :=
  ∀ w r w', m w = (r, w') → ∀ d, is_Some (fs w !! d) → is_Some (fs w' !! d).

(** C2 as stated: termination requests come only once the timeout of
    the graceful wait has elapsed. *)
Definition kills_only_after_timeout (env : os_env) (pid timeout : Z) (w w' : world) : Prop :=
  ∀ t, (t, kill_event env pid) ∈ trace w' → (clock w + timeout ≤ t)%Z.

(** ** Sample runs of the Updater *)

(** A Unix host on which the old process is gone 1 s after the first
    termination request; [int] reads "42"; every directory can be removed. *)
Definition sample_env : os_env :=
  OsEnv false (λ _ t, (3000 <=? t)%Z) (λ s, if decide (s = "42") then Some 42%Z else None)
        (λ _ _, None).

(** A Windows host on which the old process never goes away. *)
Definition stubborn_env : os_env :=
  OsEnv true (λ _ _, false) (λ s, if decide (s = "42") then Some 42%Z else None)
        (λ _ _, None).

(** A host on which a file named app.dll is still in use and cannot be
    deleted: removing a directory that holds one stops half-way and
    leaves the directory with that file. *)
Definition busy_env : os_env :=
  OsEnv true (λ _ t, (3000 <=? t)%Z) (λ s, if decide (s = "42") then Some 42%Z else None)
        (λ _ es, match lookup_entry "app.dll" es with
                 | Some x => Some [("app.dll", x)]
                 | None => None
                 end).

(** A host on which the staged directory holds a read-only subdirectory
    [sub]: removing the staged directory deletes what it can and leaves
    [sub] behind. *)
Definition readonly_env : os_env :=
  OsEnv false (λ _ t, (3000 <=? t)%Z) (λ s, if decide (s = "42") then Some 42%Z else None)
        (λ p es, if decide (p = ["/state/extracted"])
                 then Some (List.filter (λ e, bool_decide (e.1 = "sub")) es)
                 else None).

(** The example of the specification: staged [{a.txt, sub/b.txt}] and an
    installation holding [{a.txt (old), c.txt}]. *)
Definition sample_staged : list (string * node) :=
  [("a.txt", File "new"); ("sub", Dir [("b.txt", File "b")])].
Definition sample_dest : list (string * node) :=
  [("a.txt", File "old"); ("c.txt", File "c")].
Definition sample_world : world :=
  World {[ "/state/extracted" := Dir sample_staged; "/install" := Dir sample_dest ]} 0 [].

(** An installation whose [sub] holds a file in use, and one in which
    [a.txt] is a directory holding such a file. *)
Definition busy_world : world :=
  World {[ "/state/extracted" := Dir sample_staged;
           "/install" := Dir [("a.txt", File "old");
                              ("sub", Dir [("app.dll", File "in use"); ("b.txt", File "old b")]);
                              ("c.txt", File "c")] ]} 0 [].
Definition busy_world_dir_for_file : world :=
  World {[ "/state/extracted" := Dir sample_staged;
           "/install" := Dir [("a.txt", Dir [("app.dll", File "in use")]);
                              ("c.txt", File "c")] ]} 0 [].

Definition sample_argv : list string :=
  ["updater.exe"; "42"; "/install"; "/state/extracted"].
(** too few arguments *)
Definition argv_short : list string := ["updater.exe"; "42"; "/install"].
(** a staged directory that does not exist *)
Definition argv_no_stage : list string := ["updater.exe"; "42"; "/install"; "/nowhere"].
(** a destination that does not exist: the first staged file cannot be copied *)
Definition argv_no_dest : list string := ["updater.exe"; "42"; "/missing"; "/state/extracted"].

(** The metadata directory once the mutable files are deleted. *)
Definition purge (m : gmap string string) : gmap string string :=
  foldl (λ m f, delete f m) m mutable_files.

(** The effect of [_initialize_metadata] on the metadata directory, as a
    function of its content, the bundle and the network. *)
Definition bootstrap (env : app_env) (metadata_target : string) (md : gmap string string)
  : result unit * gmap string string :=
  let md0 := purge md in
  match md0 !! "root.json", md0 !! "1.root.json" with
  | Some _, Some _ => (Ret tt, md0)
  | has_root, has_versioned =>
      match bundled_root env with
      | Some c =>
          let md1 :=
            match has_root, has_versioned with
            | Some _, _ => md0
            | None, Some _ => <["root.json" := c]> md0
            | None, None => <["1.root.json" := c]> (<["root.json" := c]> md0)
            end in
          match md1 !! "1.root.json" with
          | Some _ => (Ret tt, md1)
          | None =>
              match urlopen env (metadata_target +:+ "1.root.json") with
              | Some x => (Ret tt, <["1.root.json" := x]> md1)
              | None => (Raise URLError, md1)
              end
          end
      | None =>
          match urlopen env (metadata_target +:+ "1.root.json") with
          | None => (Raise URLError, md0)
          | Some x =>
              match urlopen env (metadata_target +:+ "root.json") with
              | None => (Raise URLError, <["1.root.json" := x]> md0)
              | Some y => (Ret tt, <["root.json" := y]> (<["1.root.json" := x]> md0))
              end
          end
      end
  end.

(** C6 as stated: the segment appended for a release is the tag under
    which the publishing side stored it, that is "v" followed by the
    version string the release was published with, followed by "/". *)
Definition appends_release_tag : Prop :=
  ∀ env a m a1,
    client_check env (set_metadata purge a) = (Ret (Some m), a1) →
    target_base_url (check_for_updates env a).2 =
      target_base_url a1 +:+ release_tag (public (version m)) +:+ "/".

(** C5 as stated: the status of the handover is dedicated, that is, no
    run of [update] that ends without starting an Updater exits with it. *)
Definition restart_status_dedicated : Prop :=
  ∀ env src dst a c a',
    custom_install env src dst a = (Raise (SystemExit c), a') →
    ∀ env2 metadata_target target_base b c' b',
      update env2 metadata_target target_base b = (Raise (SystemExit c'), b') →
      spawned b' = spawned b →
      c ≠ c'.

(** ** Sample runs of the application *)

Definition sample_release : target_meta :=
  TargetMeta "AppTeste-1.1.0.tar.gz" (PkgVersion "1.1.0" "1.1.0").

(** A post-release, published with [full 1.1.0.post1 AppTeste]. *)
Definition post_release : target_meta :=
  TargetMeta "AppTeste-1.1.0.post1.tar.gz" (PkgVersion "1.1.0.post1" "1.1.0").

(** The metadata origin serves both root files. *)
Definition sample_net (u : string) : option string :=
  if decide (u = "https://origin/metadata/1.root.json") then Some "remote root"
  else if decide (u = "https://origin/metadata/root.json") then Some "remote root"
  else None.

(** A source run without a bundled root; the client is given. *)
Definition sample_app_env (check : Py app (option target_meta))
    (download : (pypath → pypath → Py app unit) → Py app unit) : app_env :=
  AppEnv false None None sample_net 4242 false (Some "") (λ u, u) check download.

(** A client that finds the release and hands it to the install callback. *)
Definition handing_env : app_env :=
  sample_app_env (ret (Some sample_release))
                 (λ install, install ["state"; "extracted"] ["install"]).

(** A client that finds the release but returns from the download step
    without calling the install callback. *)
Definition idle_env : app_env :=
  sample_app_env (ret (Some sample_release)) (λ _, ret tt).

(** A client that finds the post-release. *)
Definition post_env : app_env :=
  sample_app_env (ret (Some post_release)) (λ _, ret tt).

(** A client whose check fails on the network. *)
Definition offline_env : app_env :=
  sample_app_env (raise URLError) (λ _, ret tt).

(** Both root files pinned, a stale timestamp, the updater installed. *)
Definition sample_app : app :=
  App {[ "root.json" := "pinned root"; "1.root.json" := "pinned root";
         "timestamp.json" := "stale" ]}
      {[ ["install"; "updater.exe"] ]}
      "https://origin/targets/" None [].

(** Only root.json pinned: the versioned copy is missing. *)
Definition half_pinned_app : app :=
  App {[ "root.json" := "pinned root" ]} ∅ "https://origin/targets/" None [].

(** ** Further vocabulary and sample runs *)

(** A block that writes nowhere but under [dst]. *)
Definition touches_only {A} (dst : string) (m : Py world A) : Prop :=
  ∀ w r w', m w = (r, w') → ∀ d, d ≠ dst → fs w' !! d = fs w !! d.



(** A store in which the staged path is a regular file. *)
Definition file_staged_world : world :=
  World {[ "/state/extracted" := File "not a directory" ]} 0 [].

(** A run with a bundled root.json beside the script and no network. *)
Definition bundled_offline_env : app_env :=
  AppEnv false None (Some "bundled root") (λ _, None) 4242 false (Some "") (λ u, u)
         (raise URLError) (λ _, ret tt).

(** A first run: nothing in the metadata directory. *)
Definition empty_app : app := App ∅ ∅ "https://origin/targets/" None [].

(** Pinned roots, a cached snapshot and a later root the client stored. *)
Definition cached_app : app :=
  App {[ "root.json" := "pinned root"; "1.root.json" := "pinned root";
         "2.root.json" := "rotated root"; "snapshot.json" := "stale" ]}
      ∅ "https://origin/targets/" None [].

(** A client that finds nothing newer. *)
Definition current_env : app_env :=
  sample_app_env (ret None) (λ _, ret tt).

(** A run without a console: the release is found, the download step
    returns without handing over, and [input()] fails. *)
Definition mute_env : app_env :=
  AppEnv false None None sample_net 4242 false None (λ u, u)
         (ret (Some sample_release)) (λ _, ret tt).

(** [str.lower] on the ASCII letters, for the sample runs. *)
Definition ascii_lower_char (c : Ascii.ascii) : Ascii.ascii :=
  let n := Ascii.nat_of_ascii c in
  if ((65 <=? n) && (n <=? 90))%nat then Ascii.ascii_of_nat (n + 32) else c.
Fixpoint ascii_lower (s : string) : string :=
  match s with
  | EmptyString => EmptyString
  | String c s' => String (ascii_lower_char c) (ascii_lower s')
  end.

(** A publisher whose bundle is built but whose repository step fails. *)
Definition failing_add_env : RepoInit.script_env :=
  RepoInit.ScriptEnv ascii_lower (ret tt)
    (λ versao, ret (Some ["temp_bundle_" +:+ versao]))
    (λ _ _ _, ret false).

(** A publisher with no dist directory: no bundle can be built. *)
Definition no_dist_env : RepoInit.script_env :=
  RepoInit.ScriptEnv ascii_lower (ret tt) (λ _, ret None) (λ _ _ _, ret true).

Definition fresh_publisher : RepoInit.publisher :=
  RepoInit.Publisher None (Tree ∅ ∅) [].

(* ===================================================================== *)
(** * Properties of updates.py                                             *)
(* ===================================================================== *)

(** ** Directory entries *)


Lemma lookup_entry_cons name k x es :
  lookup_entry name ((k, x) :: es) = if decide (k = name) then Some x else lookup_entry name es.
Proof.
  unfold lookup_entry. simpl. case_bool_decide; case_decide; simplify_eq; done.
Qed.








(** ** One step of the monad *)


Lemma bind_Ret {S A B} (m : Py S A) (k : A → Py S B) s a s' :
  m s = (Ret a, s') → bind m k s = k a s'.
Proof. unfold bind. by intros ->. Qed.

Lemma bind_Raise {S A B} (m : Py S A) (k : A → Py S B) s e s' :
  m s = (Raise e, s') → bind m k s = (Raise e, s').
Proof. unfold bind. by intros ->. Qed.

Lemma emit_eq e w :
  emit e w = (Ret tt, World (fs w) (clock w) (trace w ++ [(clock w, e)])).
Proof. done. Qed.





Lemma stat_eq d name es w : fs w !! d = Some (Dir es) → stat d name w = lookup_entry name es.
Proof. unfold stat. by intros ->. Qed.








Lemma stamp_app t l1 l2 : stamp t (l1 ++ l2) = stamp t l1 ++ stamp t l2.
Proof. apply fmap_app. Qed.





(** ** Blocks that only work on files *)

Lemma fs_only_ret {A} (a : A) : fs_only (ret a).
Proof.
  intros w r w' [= <- <-]. split_and!; [done| |done|done].
  exists []. by rewrite app_nil_r.
Qed.

Lemma fs_only_bind {A B} (m : Py world A) (k : A → Py world B) :
  fs_only m → (∀ a, fs_only (k a)) → fs_only (bind m k).
Proof.
  intros Hm Hk w r w'. unfold bind.
  destruct (m w) as [[a|e|] w1] eqn:E; intros Hr.
  - destruct (Hm _ _ _ E) as (Hc1 & (ev1 & Ht1 & Hf1) & _ & Hfile1).
    destruct (Hk a _ _ _ Hr) as (Hc2 & (ev2 & Ht2 & Hf2)  & Hr2 & Hfile2).
    split_and!; [congruence| |done|by eauto].
    exists (ev1 ++ ev2). split; [|by apply Forall_app].
    by rewrite Ht2, Ht1, Hc1, stamp_app, app_assoc.
  - injection Hr as <- <-. by apply (Hm _ _ _ E).
  - injection Hr as <- <-. by apply (Hm _ _ _ E).
Qed.

Lemma fs_only_emit e : is_fs_event e = true → fs_only (emit e).
Proof.
  intros He w r w' [= <- <-]. split_and!; [done| |done|done].
  exists [e]. split; [done|]. by constructor.
Qed.

Lemma fs_only_pure {A} (f : world → A) : fs_only (λ w, (Ret (f w), w)).
Proof.
  intros w r w' [= <- <-]. split_and!; [done| |done|done].
  exists []. by rewrite app_nil_r.
Qed.

Lemma fs_only_when c m : fs_only m → fs_only (when c m).
Proof. destruct c; [done|]. intros _. apply fs_only_ret. Qed.

Lemma fs_only_for_each {A} (xs : list A) body :
  (∀ x, fs_only (body x)) → fs_only (for_each xs body).
Proof.
  intros Hb. induction xs as [|x xs IH]; simpl; [apply fs_only_ret|].
  apply fs_only_bind; [apply Hb | by intros _].
Qed.

Lemma fs_only_set_entries d es : fs_only (set_entries d es).
Proof.
  intros w r w' [= <- <-]. split_and!; [done| |done|].
  - exists []. by rewrite app_nil_r.
  - simpl. intros d' c [[_ [=]]|[_ H]]%lookup_insert_Some. done.
Qed.

Ltac fs_only_leaf :=
  first [ by eapply fs_only_set_entries
        | by simplify_eq
        | simplify_eq;
          split_and!; [done | exists []; by rewrite app_nil_r | done | done] ].

Ltac fs_only_cases :=
  intros w r w' Hrun;
  repeat match type of Hrun with
         | context [match ?x with _ => _ end] => destruct x eqn:?; cbn iota in Hrun
         end.

Lemma fs_only_unlink d name : fs_only (unlink d name).
Proof. apply fs_only_bind; [by apply fs_only_emit|]. intros _. fs_only_cases; fs_only_leaf. Qed.

Lemma fs_only_rmtree env d name : fs_only (rmtree env d name).
Proof. apply fs_only_bind; [by apply fs_only_emit|]. intros _. fs_only_cases; fs_only_leaf. Qed.

Lemma fs_only_copy2 sd sname dd dname : fs_only (copy2 sd sname dd dname).
Proof.
  apply fs_only_bind; [by apply fs_only_emit|]. intros _. unfold write_file.
  fs_only_cases;
    repeat match goal with
           | H : match ?x with _ => _ end = _ |- _ => destruct x as [[]|]; try discriminate H
           end;
    fs_only_leaf.
Qed.

Lemma fs_only_copytree sd sname dd dname : fs_only (copytree sd sname dd dname).
Proof. apply fs_only_bind; [by apply fs_only_emit|]. intros _. fs_only_cases; fs_only_leaf. Qed.

Lemma fs_only_iterdir d : fs_only (iterdir d).
Proof. unfold iterdir. fs_only_cases; fs_only_leaf. Qed.

Lemma fs_only_copy_item env ext dst name : fs_only (copy_item env ext dst name).
Proof.
  unfold copy_item. apply fs_only_bind; [apply fs_only_pure|]. intros present.
  apply fs_only_bind.
  - apply fs_only_when. apply fs_only_bind; [apply fs_only_pure|].
    intros []; [apply fs_only_unlink | apply fs_only_rmtree].
  - intros _. apply fs_only_bind; [apply fs_only_pure|].
    intros []; [apply fs_only_copy2 | apply fs_only_copytree].
Qed.

Lemma fs_only_copy_update env ext dst : fs_only (copy_update env ext dst).
Proof.
  unfold copy_update. apply fs_only_bind; [apply fs_only_iterdir|]. intros items.
  apply fs_only_for_each. intros name. apply fs_only_copy_item.
Qed.

(** ** Blocks that make no place disappear *)

Lemma keeps_places_ret {A} (a : A) : keeps_places (ret a).
Proof. by intros w r w' [= <- <-]. Qed.

Lemma keeps_places_pure {A} (f : world → A) : keeps_places (λ w, (Ret (f w), w)).
Proof. by intros w r w' [= <- <-]. Qed.

Lemma keeps_places_emit e : keeps_places (emit e).
Proof. by intros w r w' [= <- <-]. Qed.

Lemma keeps_places_bind {A B} (m : Py world A) (k : A → Py world B) :
  keeps_places m → (∀ a, keeps_places (k a)) → keeps_places (bind m k).
Proof.
  intros Hm Hk w r w'. unfold bind.
  destruct (m w) as [[a|e|] w1] eqn:E; intros Hr d Hd.
  - eapply Hk; [exact Hr|]. by eapply Hm.
  - injection Hr as <- <-. by eapply Hm.
  - injection Hr as <- <-. by eapply Hm.
Qed.

Lemma keeps_places_when c m : keeps_places m → keeps_places (when c m).
Proof. destruct c; [done|]. intros _. apply keeps_places_ret. Qed.

Lemma keeps_places_for_each {A} (xs : list A) body :
  (∀ x, keeps_places (body x)) → keeps_places (for_each xs body).
Proof.
  intros Hb. induction xs as [|x xs IH]; simpl; [apply keeps_places_ret|].
  apply keeps_places_bind; [apply Hb | by intros _].
Qed.

Lemma keeps_places_set_entries d es : keeps_places (set_entries d es).
Proof.
  intros w r w' [= <- <-] d' Hd'. simpl. apply lookup_insert_is_Some.
  destruct (decide (d = d')); [by left|by right].
Qed.

Ltac keeps_places_leaf :=
  first [ by eapply keeps_places_set_entries
        | by simplify_eq ].

Lemma keeps_places_unlink d name : keeps_places (unlink d name).
Proof.
  apply keeps_places_bind; [apply keeps_places_emit|]. intros _.
  fs_only_cases; keeps_places_leaf.
Qed.

Lemma keeps_places_rmtree env d name : keeps_places (rmtree env d name).
Proof.
  apply keeps_places_bind; [apply keeps_places_emit|]. intros _.
  fs_only_cases; keeps_places_leaf.
Qed.

Lemma keeps_places_copy2 sd sname dd dname : keeps_places (copy2 sd sname dd dname).
Proof.
  apply keeps_places_bind; [apply keeps_places_emit|]. intros _. unfold write_file.
  fs_only_cases;
    repeat match goal with
           | H : match ?x with _ => _ end = _ |- _ => destruct x as [[]|]; try discriminate H
           end;
    keeps_places_leaf.
Qed.

Lemma keeps_places_copytree sd sname dd dname : keeps_places (copytree sd sname dd dname).
Proof.
  apply keeps_places_bind; [apply keeps_places_emit|]. intros _.
  fs_only_cases; keeps_places_leaf.
Qed.

Lemma keeps_places_iterdir d : keeps_places (iterdir d).
Proof. unfold iterdir. fs_only_cases; keeps_places_leaf. Qed.

Lemma keeps_places_copy_item env ext dst name : keeps_places (copy_item env ext dst name).
Proof.
  unfold copy_item. apply keeps_places_bind; [apply keeps_places_pure|]. intros present.
  apply keeps_places_bind.
  - apply keeps_places_when. apply keeps_places_bind; [apply keeps_places_pure|].
    intros []; [apply keeps_places_unlink | apply keeps_places_rmtree].
  - intros _. apply keeps_places_bind; [apply keeps_places_pure|].
    intros []; [apply keeps_places_copy2 | apply keeps_places_copytree].
Qed.

Lemma keeps_places_copy_update env ext dst : keeps_places (copy_update env ext dst).
Proof.
  unfold copy_update. apply keeps_places_bind; [apply keeps_places_iterdir|]. intros items.
  apply keeps_places_for_each. intros name. apply keeps_places_copy_item.
Qed.

(** ** Ending the old process *)

Section UpdatesWait.
Variable env : os_env.

Lemma kill_process_eq pid w :
  kill_process env pid w =
    (Ret tt, World (fs w) (clock w) (trace w ++ [(clock w, kill_event env pid)])).
Proof. unfold kill_process, kill_event. by destruct (is_windows env). Qed.

Lemma sleep_eq ms w :
  sleep ms w =
    (Ret tt, World (fs w) (clock w + ms) (trace w ++ [(clock w, EvSleep ms)])).
Proof. done. Qed.

(** The loop, entered [n] polls before the timeout, with fuel to spare. *)
Lemma wait_loop_aligned pid start timeout (n : nat) : ∀ fuel w,
  (clock w - start = timeout - 500 * Z.of_nat n)%Z →
  (n < fuel)%nat →
  ∃ (k : nat) (b : bool),
    (k ≤ n)%nat
    ∧ wait_loop env fuel pid start timeout w =
        (Ret b, World (fs w) (clock w + 500 * Z.of_nat k)
                      (trace w ++ alive_polls pid (clock w) k ++
                       (if b then [((clock w + 500 * Z.of_nat k)%Z, EvProbe pid true)] else [])))
    ∧ (if b then (k < n)%nat ∧ kill0_raises env pid (clock w + 500 * Z.of_nat k) = true
       else k = n)
    ∧ (∀ i : nat, (i < k)%nat → kill0_raises env pid (clock w + 500 * Z.of_nat i) = false).
Proof.
  induction n as [|n IH]; intros fuel w Hclock Hfuel.
  - destruct fuel as [|fuel]; [lia|]. exists 0%nat, false. split_and!; [lia| |done|lia].
    simpl. erewrite bind_Ret by reflexivity.
    rewrite (proj2 (Z.ltb_ge _ _)) by lia.
    unfold ret. rewrite Z.add_0_r, app_nil_r. by destruct w.
  - destruct fuel as [|fuel]; [lia|]. simpl.
    erewrite bind_Ret by reflexivity.
    rewrite (proj2 (Z.ltb_lt _ _)) by lia.
    erewrite bind_Ret by reflexivity. simpl.
    destruct (kill0_raises env pid (clock w)) eqn:Hgone.
    + exists 0%nat, true. rewrite Z.add_0_r. split_and!; first [lia | done].
    + erewrite bind_Ret by apply sleep_eq.
      destruct (IH fuel (World (fs w) (clock w + 500)
                  ((trace w ++ [(clock w, EvProbe pid false)]) ++ [(clock w, EvSleep 500)])))
        as (k & b & Hk & Hrun & Hb & Halive); simpl; [lia|lia|].
      exists (S k), b. split_and!; [lia| | |].
      * rewrite Hrun. simpl. rewrite <- !app_assoc. simpl.
        replace (clock w + 500 + 500 * Z.of_nat k)%Z with (clock w + 500 * Z.of_nat (S k))%Z by lia. done.
      * simpl in Hb. replace (clock w + 500 * Z.of_nat (S k))%Z with (clock w + 500 + 500 * Z.of_nat k)%Z by lia.
        destruct b; [split; [lia|apply Hb]|lia].
      * intros [|i] Hi; [by rewrite Z.add_0_r|].
        replace (clock w + 500 * Z.of_nat (S i))%Z with (clock w + 500 + 500 * Z.of_nat i)%Z by lia.
        apply Halive. lia.
Qed.

(** [wait_process_end] never raises and never touches the files. *)
Lemma wait_loop_safe pid start timeout fuel : ∀ w r w',
  wait_loop env fuel pid start timeout w = (r, w') →
  fs w' = fs w ∧ (∀ e, r ≠ Raise e).
Proof.
  induction fuel as [|fuel IH]; intros w r w'; simpl.
  - intros [= <- <-]. done.
  - unfold bind at 1. simpl. destruct (_ <? _)%Z.
    + unfold bind at 1. simpl. destruct (kill0_raises env pid (clock w)).
      * intros [= <- <-]. done.
      * rewrite (bind_Ret _ _ _ _ _ (sleep_eq _ _)). intros Hrun.
        by destruct (IH _ _ _ Hrun) as [-> ?].
    + intros [= <- <-]. done.
Qed.

Lemma wait_process_end_safe fuel pid timeout w r w' :
  wait_process_end env fuel pid timeout w = (r, w') →
  fs w' = fs w ∧ (∀ e, r ≠ Raise e).
Proof.
  unfold wait_process_end. erewrite bind_Ret by reflexivity. unfold bind.
  destruct (wait_loop _ _ _ _ _ _) as [[[]|e|] w1] eqn:Hloop;
    destruct (wait_loop_safe _ _ _ _ _ _ _ Hloop) as [Hfs Hr].
  - intros [= <- <-]. done.
  - rewrite kill_process_eq. intros [= <- <-]. done.
  - by destruct (Hr e).
  - intros [= <- <-]. done.
Qed.

Lemma main_stop_old_safe fuel pid w r w' :
  main_stop_old env fuel pid w = (r, w') →
  fs w' = fs w ∧ (∀ e, r ≠ Raise e).
Proof.
  unfold main_stop_old, print.
  erewrite bind_Ret by apply emit_eq. erewrite bind_Ret by apply sleep_eq.
  erewrite bind_Ret by apply kill_process_eq.
  intros Hrun. by destruct (wait_process_end_safe _ _ _ _ _ _ Hrun) as [-> ?].
Qed.

(** Step 1 of [main], with the 21 units of fuel that 20 polls need. *)
Lemma main_stop_old_spec fuel pid w :
  (21 ≤ fuel)%nat →
  ∃ k : nat,
    (k ≤ 20)%nat
    ∧ main_stop_old env fuel pid w =
        (Ret tt,
         World (fs w) (clock w + 2000 + 500 * Z.of_nat k)
               (trace w ++
                [(clock w, EvPrint MsgStart); (clock w, EvSleep 2000);
                 ((clock w + 2000)%Z, kill_event env pid)] ++
                alive_polls pid (clock w + 2000) k ++
                wait_ending env pid (clock w + 2000) k))
    ∧ (k ≠ 20%nat → kill0_raises env pid (clock w + 2000 + 500 * Z.of_nat k) = true)
    ∧ (∀ i : nat, (i < k)%nat → kill0_raises env pid (clock w + 2000 + 500 * Z.of_nat i) = false).
Proof.
  intros Hfuel. unfold main_stop_old, print.
  erewrite bind_Ret by apply emit_eq. erewrite bind_Ret by apply sleep_eq.
  erewrite bind_Ret by apply kill_process_eq. simpl.
  unfold wait_process_end. erewrite bind_Ret by reflexivity. simpl.
  match goal with |- context [bind (wait_loop env fuel pid ?s ?t) _ ?w1] =>
    destruct (wait_loop_aligned pid s t 20 fuel w1) as (k & b & Hk & Hrun & Hb & Halive);
      [simpl; lia | lia |]
  end.
  cbn [fs clock trace] in *. exists k. erewrite bind_Ret by exact Hrun. unfold wait_ending.
  destruct b.
  - destruct Hb as [Hlt Hgone]. rewrite decide_False by lia.
    split_and!; [lia| |done|done].
    unfold ret. rewrite <- !app_assoc. done.
  - rewrite decide_True by done.
    split_and!; [lia| |intros; lia|done].
    rewrite kill_process_eq. cbn [fs clock trace].
    rewrite app_nil_r, <- !app_assoc.
    replace (clock w + 2000 + 10000)%Z with (clock w + 2000 + 500 * Z.of_nat k)%Z by lia.
    done.
Qed.
End UpdatesWait.

(** ** Validate, apply, clean up *)

Lemma try_except_Ret {S A} (m : Py S A) h s a s' :
  m s = (Ret a, s') → try_except m h s = (Ret a, s').
Proof. unfold try_except, try_catch. by intros ->. Qed.

Lemma try_except_Raise {S A} (m : Py S A) h s e s' :
  m s = (Raise e, s') → is_Exception e = true → try_except m h s = h e s'.
Proof. unfold try_except, try_catch. by intros -> ->. Qed.

Lemma main_install_missing env ext dst w :
  fs w !! ext = None →
  main_install env ext dst w =
    (Raise (SystemExit 1),
     World (fs w) (clock w) (trace w ++ [(clock w, EvPrint MsgNoExtractDir)])).
Proof.
  intros Hext. unfold main_install, dir_exists.
  erewrite bind_Ret by reflexivity.
  rewrite bool_decide_eq_false_2 by (rewrite Hext; by intros [? ?]).
  erewrite bind_Raise; [done|]. simpl. unfold print.
  erewrite bind_Ret by apply emit_eq. done.
Qed.

Lemma rmtree_dir_eq env d w :
  rmtree_dir env d w =
    (Ret tt, World (cleaned env d (fs w)) (clock w) (trace w ++ [(clock w, EvCleanup d)])).
Proof. done. Qed.

(** After an Apply that returned, the staged path is still a directory. *)
Lemma copy_update_keeps_staged env ext dst w w2 :
  copy_update env ext dst w = (Ret tt, w2) →
  ∃ es, fs w2 !! ext = Some (Dir es).
Proof.
  intros Hrun.
  assert (is_Some (fs w !! ext)) as Hsome.
  { unfold copy_update, iterdir, bind in Hrun.
    destruct (fs w !! ext) as [[c|es]|]; [done|by eexists|done]. }
  destruct (keeps_places_copy_update env ext dst _ _ _ Hrun ext Hsome) as [[c|es] Hx2]; [|eauto].
  destruct (fs_only_copy_update env ext dst _ _ _ Hrun) as (_ & _ & _ & Hfile).
  apply Hfile in Hx2. unfold copy_update, iterdir, bind in Hrun. by rewrite Hx2 in Hrun.
Qed.

Lemma main_install_present env ext dst w r w2 :
  is_Some (fs w !! ext) →
  copy_update env ext dst (World (fs w) (clock w) (trace w ++ [(clock w, EvApply)])) = (r, w2) →
  match r with
  | Ret _ =>
      main_install env ext dst w =
        (Raise (SystemExit 0),
         World (cleaned env ext (fs w2)) (clock w2)
               (trace w2 ++ [(clock w2, EvCleanup ext); (clock w2, EvPrint MsgDone)]))
  | Raise e =>
      main_install env ext dst w =
        (Raise (SystemExit 1),
         World (fs w2) (clock w2) (trace w2 ++ [(clock w2, EvPrint (MsgApplyError e))]))
  | OutOfFuel => False
  end.
Proof.
  intros Hext Hrun.
  destruct (fs_only_copy_update env ext dst _ _ _ Hrun) as (_ & _ & Hr & Hfile).
  unfold main_install, dir_exists.
  erewrite bind_Ret by reflexivity. rewrite bool_decide_eq_true_2 by done.
  erewrite bind_Ret by reflexivity. erewrite bind_Ret by apply emit_eq.
  destruct r as [[]|e|]; [| |done].
  - erewrite bind_Ret by (by apply try_except_Ret).
    erewrite bind_Ret by apply rmtree_dir_eq.
    unfold print. erewrite bind_Ret by apply emit_eq. simpl. by rewrite <- app_assoc.
  - erewrite bind_Raise; [done|].
    erewrite try_except_Raise by done. unfold print.
    erewrite bind_Ret by apply emit_eq. done.
Qed.

Lemma argv_lookups (argv : list string) :
  (4 ≤ length argv)%nat →
  ∃ a0 a1 destino extract_dir rest, argv = a0 :: a1 :: destino :: extract_dir :: rest.
Proof.
  destruct argv as [|a0 [|a1 [|a2 [|a3 rest]]]]; simpl; try lia. eauto 10.
Qed.

Lemma main_eq env fuel a0 a1 destino extract_dir rest pid :
  py_int env a1 = Some pid →
  main env fuel (a0 :: a1 :: destino :: extract_dir :: rest) =
    (main_stop_old env fuel pid >> main_install env extract_dir destino).
Proof.
  intros Hpid. unfold main. simpl. rewrite Hpid. done.
Qed.

(** C9 (amended): on every run of the Updater that exits 0, Apply has
    returned without raising and the recursive removal of the staged
    directory has then been attempted with its errors ignored; nothing
    but the final message follows.  When the process ends the staged
    directory does not exist if the host let it be removed, and
    otherwise it is still there with what the removal left of it: the
    cleanup is best effort and the exit status is 0 either way. *)
Theorem main_success_cleanup_is_best_effort env fuel argv w w' :
  run_main env fuel argv w = (Exited 0, w') →
  ∃ destino extract_dir w1 w2 staged',
    argv !! 2%nat = Some destino
    ∧ argv !! 3%nat = Some extract_dir
    ∧ fs w1 = fs w
    ∧ copy_update env extract_dir destino w1 = (Ret tt, w2)
    ∧ fs w2 !! extract_dir = Some (Dir staged')
    ∧ fs w' !! extract_dir = Dir <$> rmtree_leaves env [extract_dir] staged'
    ∧ (∀ d, d ≠ extract_dir → fs w' !! d = fs w2 !! d)
    ∧ trace w' = trace w2 ++ [(clock w2, EvCleanup extract_dir); (clock w2, EvPrint MsgDone)].
Proof.
  unfold run_main. destruct (main env fuel argv w) as [r wf] eqn:Hmain.
  intros [= Hr ->]. revert Hmain. unfold main.
  destruct (length argv <? 4)%nat eqn:Hlen.
  { unfold print. erewrite bind_Ret by apply emit_eq. intros [= <- <-]. done. }
  apply Nat.ltb_ge in Hlen.
  destruct (argv_lookups argv Hlen) as (a0 & a1 & destino & extract_dir & rest & ->).
  simpl. destruct (py_int env a1) as [pid|].
  2:{ intros [= <- <-]. done. }
  erewrite bind_Ret by reflexivity. unfold bind at 1.
  destruct (main_stop_old env fuel pid w) as [[[]|e|] w1] eqn:Hstop;
    destruct (main_stop_old_safe _ _ _ _ _ _ Hstop) as [Hfs Hne].
  2:{ by destruct (Hne e). }
  2:{ intros [= <- <-]. done. }
  destruct (fs w1 !! extract_dir) eqn:Hext.
  2:{ rewrite main_install_missing by done. intros [= <- <-]. done. }
  destruct (copy_update env extract_dir destino
              (World (fs w1) (clock w1) (trace w1 ++ [(clock w1, EvApply)])))
    as [rc w2] eqn:Hcopy.
  pose proof (main_install_present env extract_dir destino w1 rc w2 (mk_is_Some _ _ Hext) Hcopy)
    as Hinst.
  destruct rc as [[]|e|]; [|rewrite Hinst; intros [= <- <-]; done|done].
  rewrite Hinst. intros [= <- <-].
  destruct (copy_update_keeps_staged _ _ _ _ _ Hcopy) as [staged' Hstaged].
  eexists destino, extract_dir, _, w2, staged'.
  split_and!; [done|done| |exact Hcopy|done| | |done].
  - done.
  - cbn [fs]. unfold cleaned. rewrite Hstaged.
    destruct (rmtree_leaves env [extract_dir] staged'); simpl;
      [apply lookup_insert_eq|apply lookup_delete_eq].
  - intros d Hd. cbn [fs]. unfold cleaned. rewrite Hstaged.
    destruct (rmtree_leaves env [extract_dir] staged');
      [by rewrite lookup_insert_ne|by rewrite lookup_delete_ne].
Qed.

(** C3 (amended): with fuel for the whole wait, the Updater exits 1 when
    arguments are missing, exits 1 when the staged directory does not
    exist, exits 1 when Apply raises, and exits 0 when Apply returns. *)
Theorem main_exit_codes env fuel argv w :
  (21 ≤ fuel)%nat →
  ((length argv < 4)%nat → (run_main env fuel argv w).1 = Exited 1)
  ∧ (∀ a0 a1 destino extract_dir rest pid,
       argv = a0 :: a1 :: destino :: extract_dir :: rest →
       py_int env a1 = Some pid →
       ∃ w1,
         fs w1 = fs w
         ∧ (fs w !! extract_dir = None → (run_main env fuel argv w).1 = Exited 1)
         ∧ (is_Some (fs w !! extract_dir) →
            ∀ r w2, copy_update env extract_dir destino w1 = (r, w2) →
              (run_main env fuel argv w).1 =
                match r with
                | Ret _ => Exited 0
                | _ => Exited 1
                end)).
Proof.
  intros Hfuel. split.
  - intros Hlen. unfold run_main, main. rewrite (proj2 (Nat.ltb_lt _ _)) by done.
    unfold print. erewrite bind_Ret by apply emit_eq. done.
  - intros a0 a1 destino extract_dir rest pid -> Hpid.
    unfold run_main. rewrite (main_eq _ _ _ _ _ _ _ _ Hpid).
    destruct (main_stop_old_spec env fuel pid w Hfuel) as (k & _ & Hstop & _).
    erewrite bind_Ret by exact Hstop.
    match type of Hstop with _ = (_, ?w1) => set (w1' := w1) in * end.
    exists (World (fs w1') (clock w1') (trace w1' ++ [(clock w1', EvApply)])).
    split_and!; [done| |].
    + intros Hext. by rewrite main_install_missing.
    + intros Hext r w2 Hcopy.
      pose proof (main_install_present env extract_dir destino w1' r w2 Hext Hcopy) as Hinst.
      destruct r as [[]|e|]; [by rewrite Hinst|by rewrite Hinst|done].
Qed.

Lemma main_exit_codes_witness :
  (run_main sample_env 21 argv_short sample_world).1 = Exited 1
  ∧ (run_main sample_env 21 argv_no_stage sample_world).1 = Exited 1
  ∧ (run_main sample_env 21 argv_no_dest sample_world).1 = Exited 1
  ∧ (run_main sample_env 21 sample_argv sample_world).1 = Exited 0.
Proof.
  split_and!.
  - apply (main_exit_codes sample_env 21 argv_short sample_world); [lia | simpl; lia].
  - destruct (proj2 (main_exit_codes sample_env 21 argv_no_stage sample_world ltac:(lia))
                _ _ _ _ _ 42%Z eq_refl eq_refl) as (w1 & _ & Hmissing & _).
    apply Hmissing. reflexivity.
  - destruct (proj2 (main_exit_codes sample_env 21 argv_no_dest sample_world ltac:(lia))
                _ _ _ _ _ 42%Z eq_refl eq_refl) as (w1 & Hfs & _ & Hpresent).
    destruct (copy_update sample_env "/state/extracted" "/missing" w1) as [r w2] eqn:Hcopy.
    rewrite (Hpresent ltac:(by eexists) r w2 eq_refl).
    destruct r as [[]|e|]; [|done..].
    exfalso. destruct w1 as [f c t]. simpl in Hfs. subst f.
    vm_compute in Hcopy. discriminate Hcopy.
  - destruct (proj2 (main_exit_codes sample_env 21 sample_argv sample_world ltac:(lia))
                _ _ _ _ _ 42%Z eq_refl eq_refl) as (w1 & Hfs & _ & Hpresent).
    destruct (copy_update sample_env "/state/extracted" "/install" w1) as [r w2] eqn:Hcopy.
    rewrite (Hpresent ltac:(by eexists) r w2 eq_refl).
    destruct w1 as [f c t]. simpl in Hfs. subst f.
    vm_compute in Hcopy. by injection Hcopy as <- _.
Defined.

(** C3, as stated, fails: the three failure modes do not have pairwise
    different exit codes; on these three runs, which end with the usage
    message, the missing-directory message and the apply-error message,
    the code is 1 each time. *)
Lemma main_failure_codes_coincide :
  ¬ (∀ c1 c2 c3 : Z,
       (run_main sample_env 21 argv_short sample_world).1 = Exited c1 →
       (run_main sample_env 21 argv_no_stage sample_world).1 = Exited c2 →
       (run_main sample_env 21 argv_no_dest sample_world).1 = Exited c3 →
       c1 ≠ c2 ∧ c1 ≠ c3 ∧ c2 ≠ c3).
Proof.
  intros H. destruct (H 1%Z 1%Z 1%Z) as [Hne _]; [by vm_compute..|]. by apply Hne.
Qed.

Example main_failure_messages :
  last (trace (run_main sample_env 21 argv_short sample_world).2) = Some (0%Z, EvPrint MsgUsage)
  ∧ last (trace (run_main sample_env 21 argv_no_stage sample_world).2)
      = Some (3000%Z, EvPrint MsgNoExtractDir)
  ∧ last (trace (run_main sample_env 21 argv_no_dest sample_world).2)
      = Some (3000%Z, EvPrint (MsgApplyError FileNotFoundError)).
Proof. by vm_compute. Qed.

Lemma is_fs_event_not_process e : is_fs_event e = true → is_process_event e = false.
Proof. by destruct e. Qed.

Lemma main_install_trace env ext dst w r w' :
  main_install env ext dst w = (r, w') →
  ∃ code tail,
    r = Raise (SystemExit code)
    ∧ trace w' = trace w ++ stamp (clock w) tail
    ∧ Forall (λ e, is_process_event e = false) tail.
Proof.
  destruct (fs w !! ext) eqn:Hext.
  - destruct (copy_update env ext dst (World (fs w) (clock w) (trace w ++ [(clock w, EvApply)])))
      as [rc w2] eqn:Hcopy.
    pose proof (main_install_present env ext dst w rc w2 (mk_is_Some _ _ Hext) Hcopy) as Hinst.
    destruct (fs_only_copy_update env ext dst _ _ _ Hcopy) as (Hclock & (evs & Htr & Hevs) & _ & _).
    simpl in Hclock, Htr.
    assert (Forall (λ e, is_process_event e = false) evs) as Hevs'.
    { eapply Forall_impl; [exact Hevs|]. apply is_fs_event_not_process. }
    destruct rc as [[]|e|]; [| |done]; rewrite Hinst; intros [= <- <-]; simpl.
    + exists 0%Z, (EvApply :: evs ++ [EvCleanup ext; EvPrint MsgDone]). split_and!; [done| |].
      * rewrite Htr, Hclock, <- !app_assoc. simpl. by rewrite stamp_app.
      * constructor; [done|]. apply Forall_app. split; [done|]. by repeat constructor.
    + exists 1%Z, (EvApply :: evs ++ [EvPrint (MsgApplyError e)]). split_and!; [done| |].
      * rewrite Htr, Hclock, <- !app_assoc. simpl. by rewrite stamp_app.
      * constructor; [done|]. apply Forall_app. split; [done|]. by repeat constructor.
  - rewrite main_install_missing by done. intros [= <- <-].
    exists 1%Z, [EvPrint MsgNoExtractDir]. split_and!; [done|done|by repeat constructor].
Qed.

Lemma elem_of_alive_polls t e pid t0 k :
  (t, e) ∈ alive_polls pid t0 k → e = EvProbe pid false ∨ e = EvSleep 500.
Proof.
  revert t0. induction k as [|k IH]; intros t0; simpl.
  - by intros ?%elem_of_nil.
  - rewrite !elem_of_cons. intros [[= _ ->]|[[= _ ->]|Hin]]; eauto.
Qed.

Lemma elem_of_stamp t e t0 evs : (t, e) ∈ stamp t0 evs → t = t0 ∧ e ∈ evs.
Proof. unfold stamp. rewrite list_elem_of_fmap. by intros (e' & [= -> ->] & ?). Qed.

(** C2 (amended): with valid arguments, the Updater announces itself,
    sleeps 2 s and issues a termination request at once; it then polls the
    process every 500 ms, at most 20 times (10 s); the polling ends either
    on a probe that finds the process gone, or, after the 20th poll, on a
    second termination request issued 10 s after the first; everything
    else, the Apply mark included, comes after that, so Apply is entered
    only once a probe has found the process gone or the 10 s have elapsed. *)
Theorem main_handoff_order env fuel a0 a1 destino extract_dir rest pid w :
  (21 ≤ fuel)%nat →
  py_int env a1 = Some pid →
  ∃ (k : nat) (tail : list event) (code : Z) (w' : world) (new : list (Z * event)),
    main env fuel (a0 :: a1 :: destino :: extract_dir :: rest) w = (Raise (SystemExit code), w')
    ∧ (k ≤ 20)%nat
    ∧ trace w' = trace w ++ new
    ∧ new = [(clock w, EvPrint MsgStart); (clock w, EvSleep 2000);
             ((clock w + 2000)%Z, kill_event env pid)] ++
            alive_polls pid (clock w + 2000) k ++
            wait_ending env pid (clock w + 2000) k ++
            stamp (clock w + 2000 + 500 * Z.of_nat k) tail
    ∧ Forall (λ e, is_process_event e = false) tail
    ∧ (∀ i : nat, (i < k)%nat → kill0_raises env pid (clock w + 2000 + 500 * Z.of_nat i) = false)
    ∧ (k ≠ 20%nat → kill0_raises env pid (clock w + 2000 + 500 * Z.of_nat k) = true)
    ∧ (∀ t, (t, EvApply) ∈ new →
         (t = clock w + 2000 + 10000)%Z ∨ (t, EvProbe pid true) ∈ new).
Proof.
  intros Hfuel Hpid. rewrite (main_eq _ _ _ _ _ _ _ _ Hpid).
  destruct (main_stop_old_spec env fuel pid w Hfuel) as (k & Hk & Hstop & Hgone & Halive).
  match type of Hstop with _ = (_, ?w1) => set (w1' := w1) in * end.
  destruct (main_install env extract_dir destino w1') as [r w'] eqn:Hinst.
  destruct (main_install_trace _ _ _ _ _ _ Hinst) as (code & tail & -> & Htr & Htail).
  exists k, tail, code, w'. eexists. split_and!; [| done | | reflexivity | done..|].
  - erewrite bind_Ret by exact Hstop. exact Hinst.
  - rewrite Htr. unfold w1'. cbn [trace clock]. by rewrite <- !app_assoc.
  - intros t. rewrite !elem_of_app. intros [Hin|[Hin|[Hin|Hin]]].
    + repeat (apply elem_of_cons in Hin as [[= ? ?]|Hin]); try done.
      * unfold kill_event in *. by destruct (is_windows env).
      * by apply elem_of_nil in Hin.
    + by apply elem_of_alive_polls in Hin as [?|?].
    + unfold wait_ending, kill_event in Hin.
      case_decide; apply list_elem_of_singleton in Hin; simplify_eq.
      by destruct (is_windows env).
    + apply elem_of_stamp in Hin as [-> _].
      destruct (decide (k = 20%nat)) as [->|Hne]; [left; lia|right].
      right. right. left. unfold wait_ending. rewrite decide_False by done.
      by apply list_elem_of_singleton.
Qed.

(** C2, as stated, fails: on a host where the old process is gone one
    second after the first request, a termination request is logged at
    2000 ms, before any probe and long before 10 s have elapsed. *)
Lemma main_kills_before_waiting :
  ¬ kills_only_after_timeout sample_env 42 10000 sample_world
      (main sample_env 21 sample_argv sample_world).2.
Proof.
  intros H. specialize (H 2000%Z). simpl in H.
  assert (10000 ≤ 2000)%Z; [|lia]. apply H. vm_compute.
  apply list_elem_of_In. simpl. tauto.
Qed.

Lemma main_handoff_order_witness :
  ∃ (k : nat) (tail : list event) (code : Z) (w' : world) (new : list (Z * event)),
    main sample_env 21 sample_argv sample_world = (Raise (SystemExit code), w')
    ∧ (k ≤ 20)%nat
    ∧ trace w' = trace sample_world ++ new
    ∧ new = [(clock sample_world, EvPrint MsgStart); (clock sample_world, EvSleep 2000);
             ((clock sample_world + 2000)%Z, kill_event sample_env 42)] ++
            alive_polls 42 (clock sample_world + 2000) k ++
            wait_ending sample_env 42 (clock sample_world + 2000) k ++
            stamp (clock sample_world + 2000 + 500 * Z.of_nat k) tail
    ∧ Forall (λ e, is_process_event e = false) tail
    ∧ (∀ i : nat, (i < k)%nat →
         kill0_raises sample_env 42 (clock sample_world + 2000 + 500 * Z.of_nat i) = false)
    ∧ (k ≠ 20%nat →
         kill0_raises sample_env 42 (clock sample_world + 2000 + 500 * Z.of_nat k) = true)
    ∧ (∀ t, (t, EvApply) ∈ new →
         (t = clock sample_world + 2000 + 10000)%Z ∨ (t, EvProbe 42 true) ∈ new).
Proof.
  apply (main_handoff_order sample_env 21 "updater.exe" "42" "/install" "/state/extracted" [] 42
           sample_world); [lia | reflexivity].
Defined.

Lemma main_success_cleanup_is_best_effort_witness :
  ∃ destino extract_dir w1 w2 staged',
    sample_argv !! 2%nat = Some destino
    ∧ sample_argv !! 3%nat = Some extract_dir
    ∧ fs w1 = fs sample_world
    ∧ copy_update sample_env extract_dir destino w1 = (Ret tt, w2)
    ∧ fs w2 !! extract_dir = Some (Dir staged')
    ∧ fs (run_main sample_env 21 sample_argv sample_world).2 !! extract_dir
        = Dir <$> rmtree_leaves sample_env [extract_dir] staged'
    ∧ (∀ d, d ≠ extract_dir →
         fs (run_main sample_env 21 sample_argv sample_world).2 !! d = fs w2 !! d)
    ∧ trace (run_main sample_env 21 sample_argv sample_world).2 =
        trace w2 ++ [(clock w2, EvCleanup extract_dir); (clock w2, EvPrint MsgDone)].
Proof.
  apply (main_success_cleanup_is_best_effort sample_env 21 sample_argv sample_world).
  vm_compute. reflexivity.
Defined.

(** C9, as stated, fails: on a host where the staged directory holds a
    read-only subdirectory, Apply returns, the removal of the staged
    directory fails half-way and is ignored, and the Updater exits 0
    with the staged directory still there. *)
Lemma main_exits_0_with_staged_dir_left :
  ¬ success_removes_staged_dir readonly_env 21 sample_argv sample_world.
Proof.
  intros H. specialize (H ltac:(by vm_compute) "/state/extracted" eq_refl).
  vm_compute in H. discriminate H.
Qed.

Example main_leaves_readonly_subdirectory :
  (run_main readonly_env 21 sample_argv sample_world).1 = Exited 0
  ∧ fs (run_main readonly_env 21 sample_argv sample_world).2 !! "/state/extracted"
      = Some (Dir [("sub", Dir [("b.txt", File "b")])])
  ∧ stat "/install" "sub" (run_main readonly_env 21 sample_argv sample_world).2
      = Some (Dir [("b.txt", File "b")]).
Proof. by vm_compute. Qed.



Example copy_update_stops_on_busy_directory :
  (copy_update busy_env "/state/extracted" "/install" busy_world).1 = Raise FileExistsError
  ∧ stat "/install" "sub" (copy_update busy_env "/state/extracted" "/install" busy_world).2
      = Some (Dir [("app.dll", File "in use")])
  ∧ stat "/install" "a.txt" (copy_update busy_env "/state/extracted" "/install" busy_world).2
      = Some (File "new").
Proof. by vm_compute. Qed.

(** A staged file whose namesake is a directory that cannot be removed:
    Apply returns normally with the file inside that directory. *)
Example copy_update_puts_file_inside_busy_directory :
  (copy_update busy_env "/state/extracted" "/install" busy_world_dir_for_file).1 = Ret tt
  ∧ ∃ kept,
      stat "/install" "a.txt"
        (copy_update busy_env "/state/extracted" "/install" busy_world_dir_for_file).2
        = Some (Dir kept)
      ∧ lookup_entry "a.txt" kept = Some (File "new")
      ∧ lookup_entry "app.dll" kept = Some (File "in use").
Proof. split; [by vm_compute|]. eexists. by vm_compute. Qed.

(** A process that never goes away: 20 polls, then the second request
    10 s after the first, then Apply. *)
Example main_times_out_on_stubborn_process :
  let w' := (run_main stubborn_env 21 sample_argv sample_world).2 in
  (run_main stubborn_env 21 sample_argv sample_world).1 = Exited 0
  ∧ List.filter (λ e, match e.2 with EvTaskkill _ | EvApply => true | _ => false end)
                (trace w') =
      [(2000%Z, EvTaskkill 42); (12000%Z, EvTaskkill 42); (12000%Z, EvApply)]
  ∧ length (List.filter (λ e, match e.2 with EvProbe _ _ => true | _ => false end)
                        (trace w')) = 20%nat.
Proof. by vm_compute. Qed.

(** With 20 units of fuel the model of that run gives up in the loop:
    21 are needed, one per evaluation of the loop condition. *)
Example main_needs_fuel :
  (run_main stubborn_env 20 sample_argv sample_world).1 = Hang.
Proof. by vm_compute. Qed.

(** A PID that [int] rejects ends the process with a traceback, which the
    operating system also sees as status 1. *)
Example main_bad_pid_status :
  (run_main sample_env 21 ["updater.exe"; "abc"; "/install"; "/state/extracted"]
            sample_world).1 = Uncaught ValueError
  ∧ exit_status (Uncaught ValueError) = Some 1%Z.
Proof. by vm_compute. Qed.

(** The example of the specification, run: [a.txt] is replaced, [sub]
    arrives with its file, [c.txt] stays, and the staged directory is
    gone afterwards. *)
Example main_applies_sample :
  let r := run_main sample_env 21 sample_argv sample_world in
  r.1 = Exited 0
  ∧ stat "/install" "a.txt" r.2 = Some (File "new")
  ∧ stat "/install" "sub" r.2 = Some (Dir [("b.txt", File "b")])
  ∧ stat "/install" "c.txt" r.2 = Some (File "c")
  ∧ fs r.2 !! "/state/extracted" = None
  ∧ clock r.2 = 3000%Z
  ∧ trace r.2 =
      [(0%Z, EvPrint MsgStart); (0%Z, EvSleep 2000); (2000%Z, EvSigterm 42);
       (2000%Z, EvProbe 42 false); (2000%Z, EvSleep 500);
       (2500%Z, EvProbe 42 false); (2500%Z, EvSleep 500);
       (3000%Z, EvProbe 42 true); (3000%Z, EvApply);
       (3000%Z, EvUnlink "/install" "a.txt");
       (3000%Z, EvCopy2 "/state/extracted" "a.txt" "/install" "a.txt");
       (3000%Z, EvCopytree "/state/extracted" "sub" "/install" "sub");
       (3000%Z, EvCleanup "/state/extracted"); (3000%Z, EvPrint MsgDone)].
Proof. by vm_compute. Qed.

(* ===================================================================== *)
(** * Properties of AutoUpdate.py                                          *)
(* ===================================================================== *)

(** ** The metadata cache *)

Lemma lookup_purge (m : gmap string string) (f : string) :
  purge m !! f = if decide (f ∈ mutable_files) then None else m !! f.
Proof.
  unfold purge, mutable_files. simpl. case_decide as Hf.
  - repeat (apply elem_of_cons in Hf as [->|Hf]); [| | |by apply elem_of_nil in Hf].
    + by rewrite lookup_delete_ne, lookup_delete_ne, lookup_delete_eq.
    + by rewrite lookup_delete_ne, lookup_delete_eq.
    + by rewrite lookup_delete_eq.
  - rewrite !not_elem_of_cons in Hf. destruct Hf as (? & ? & ? & _).
    by rewrite !lookup_delete_ne.
Qed.

Lemma lookup_purge_root (m : gmap string string) : purge m !! "root.json" = m !! "root.json".
Proof. by rewrite lookup_purge. Qed.

Lemma lookup_purge_versioned (m : gmap string string) :
  purge m !! "1.root.json" = m !! "1.root.json".
Proof. by rewrite lookup_purge. Qed.

Lemma purge_idemp (m : gmap string string) : purge (purge m) = purge m.
Proof. apply map_eq. intros f. rewrite !lookup_purge. by case_decide. Qed.

Lemma purge_insert (m : gmap string string) (f c : string) :
  f ∉ mutable_files → purge (<[f := c]> m) = <[f := c]> (purge m).
Proof.
  intros Hf. apply map_eq. intros g. rewrite lookup_purge.
  destruct (decide (f = g)) as [<-|Hne].
  - rewrite decide_False by done. by rewrite !lookup_insert_eq.
  - rewrite !lookup_insert_ne by done. by rewrite lookup_purge.
Qed.

Section BootstrapFacts.
Variable env : app_env.

Lemma clear_one f (a : app) :
  (let* present := md_exists f in when present (md_unlink f)) a =
    (Ret tt, set_metadata (delete f) a).
Proof.
  unfold bind, md_exists, when, md_unlink, ret. simpl.
  destruct (metadata a !! f) eqn:E; simpl.
  - by rewrite E.
  - unfold set_metadata. rewrite delete_id by done. by destruct a.
Qed.

Lemma clear_mutable_metadata_eq (a : app) :
  clear_mutable_metadata a = (Ret tt, set_metadata purge a).
Proof.
  unfold clear_mutable_metadata, mutable_files. simpl.
  erewrite bind_Ret by apply clear_one.
  erewrite bind_Ret by apply clear_one.
  erewrite bind_Ret by apply clear_one. done.
Qed.
End BootstrapFacts.

(** ** Trust bootstrap *)

Section Bootstrap.
Variable env : app_env.
Variable metadata_target : string.

Lemma md_exists_eq f (a : app) :
  md_exists f a = (Ret (bool_decide (is_Some (metadata a !! f))), a).
Proof. done. Qed.

Lemma md_write_eq f c (a : app) :
  md_write f c a = (Ret tt, set_metadata (λ m, <[f := c]> m) a).
Proof. done. Qed.

Lemma copy_bundled_root_eq (a : app) :
  copy_bundled_root_if_available env a =
    match bundled_root env with
    | Some c =>
        (Ret true,
         set_metadata (λ m, match m !! "root.json", m !! "1.root.json" with
                            | Some _, _ => m
                            | None, Some _ => <["root.json" := c]> m
                            | None, None => <["1.root.json" := c]> (<["root.json" := c]> m)
                            end) a)
    | None => (Ret false, a)
    end.
Proof.
  unfold copy_bundled_root_if_available. destruct (bundled_root env) as [c|]; [|done].
  erewrite bind_Ret by apply md_exists_eq.
  destruct a as [md dk url lm sp]. unfold set_metadata. simpl.
  destruct (md !! "root.json") as [r0|] eqn:Hroot; simpl; [done|].
  erewrite bind_Ret; [reflexivity|].
  erewrite bind_Ret by apply md_write_eq.
  erewrite bind_Ret by apply md_exists_eq. simpl.
  rewrite lookup_insert_ne by done.
  destruct (md !! "1.root.json") as [v0|] eqn:Hv; simpl; done.
Qed.

Lemma _download_metadata_file_eq f (a : app) :
  _download_metadata_file env f metadata_target a =
    match urlopen env (metadata_target +:+ f) with
    | Some x => (Ret tt, set_metadata (λ m, <[f := x]> m) a)
    | None => (Raise URLError, a)
    end.
Proof. unfold _download_metadata_file. by destruct (urlopen env _). Qed.

Lemma _initialize_metadata_eq (a : app) :
  _initialize_metadata env metadata_target a =
    ((bootstrap env metadata_target (metadata a)).1,
     set_metadata (λ _, (bootstrap env metadata_target (metadata a)).2) a).
Proof.
  unfold _initialize_metadata, bootstrap.
  erewrite bind_Ret by apply clear_mutable_metadata_eq.
  erewrite bind_Ret by apply md_exists_eq.
  erewrite bind_Ret by apply md_exists_eq.
  destruct a as [md dk url lm sp]. unfold set_metadata. simpl.
  set (md0 := purge md).
  destruct (md0 !! "root.json") as [r0|] eqn:Hroot;
    destruct (md0 !! "1.root.json") as [v0|] eqn:Hv; simpl; [done|..].
  all: unfold bind at 1; rewrite copy_bundled_root_eq;
    destruct (bundled_root env) as [c|]; unfold set_metadata; simpl;
    rewrite ?Hroot, ?Hv.
  all: try (erewrite bind_Ret by apply md_exists_eq; simpl;
            rewrite ?lookup_insert_eq, ?lookup_insert_ne, ?Hv by done; simpl;
            unfold ret; rewrite ?_download_metadata_file_eq;
            first [done | by destruct (urlopen env _)]).
  all: unfold bind; rewrite _download_metadata_file_eq;
    destruct (urlopen env (metadata_target +:+ "1.root.json")); [|done];
    cbn beta iota; rewrite _download_metadata_file_eq;
    by destruct (urlopen env (metadata_target +:+ "root.json")).
Qed.
End Bootstrap.

Section BootstrapProps.
Variable env : app_env.
Variable metadata_target : string.

Lemma root_not_mutable : "root.json" ∉ mutable_files.
Proof. unfold mutable_files. rewrite !not_elem_of_cons. split_and!; [done..|apply not_elem_of_nil]. Qed.

Lemma versioned_not_mutable : "1.root.json" ∉ mutable_files.
Proof. unfold mutable_files. rewrite !not_elem_of_cons. split_and!; [done..|apply not_elem_of_nil]. Qed.

Lemma bootstrap_initialized (md : gmap string string) :
  is_Some (md !! "root.json") → is_Some (md !! "1.root.json") →
  bootstrap env metadata_target md = (Ret tt, purge md).
Proof.
  intros [r Hr] [v Hv]. unfold bootstrap.
  by rewrite lookup_purge_root, lookup_purge_versioned, Hr, Hv.
Qed.

(** Whatever the outcome, the directory afterwards is the purged one
    with at most the two root files set. *)
Lemma bootstrap_shape (md : gmap string string) :
  ∃ (root versioned : option string),
    (bootstrap env metadata_target md).2 =
      match versioned with Some v => <["1.root.json" := v]> | None => id end
        (match root with Some r => <["root.json" := r]> | None => id end (purge md)).
Proof.
  unfold bootstrap.
  destruct (purge md !! "root.json") as [r0|] eqn:Hroot;
    destruct (purge md !! "1.root.json") as [v0|] eqn:Hv; simpl;
    [by exists None, None|..];
    destruct (bundled_root env) as [c|]; simpl;
    rewrite ?lookup_insert_eq, ?lookup_insert_ne, ?Hv by done; simpl;
    repeat (destruct (urlopen env _); simpl).
  all: first [ by exists None, None
             | by eexists None, (Some _)
             | by eexists (Some _), None
             | by eexists (Some _), (Some _)
             | idtac ].
  all: eexists (Some _), (Some _); simpl; apply insert_insert_ne; done.
Qed.

Lemma bootstrap_mutable_gone (md : gmap string string) (f : string) :
  f ∈ mutable_files → (bootstrap env metadata_target md).2 !! f = None.
Proof.
  intros Hf. destruct (bootstrap_shape md) as (root & versioned & ->).
  assert (f ≠ "root.json") by (intros ->; by apply root_not_mutable).
  assert (f ≠ "1.root.json") by (intros ->; by apply versioned_not_mutable).
  destruct root, versioned; simpl; rewrite ?lookup_insert_ne by done;
    rewrite lookup_purge; by rewrite decide_True.
Qed.

Lemma bootstrap_frame (md : gmap string string) (f : string) :
  f ∉ mutable_files → f ≠ "root.json" → f ≠ "1.root.json" →
  (bootstrap env metadata_target md).2 !! f = md !! f.
Proof.
  intros Hf Hr Hv. destruct (bootstrap_shape md) as (root & versioned & ->).
  destruct root, versioned; simpl; rewrite ?lookup_insert_ne by done;
    rewrite lookup_purge; by rewrite decide_False.
Qed.

Lemma purge_bootstrap (md : gmap string string) :
  purge (bootstrap env metadata_target md).2 = (bootstrap env metadata_target md).2.
Proof.
  destruct (bootstrap_shape md) as (root & versioned & ->).
  destruct root, versioned; simpl;
    rewrite ?purge_insert by (apply root_not_mutable || apply versioned_not_mutable);
    by rewrite purge_idemp.
Qed.

Lemma bootstrap_idemp (md : gmap string string) :
  (bootstrap env metadata_target (bootstrap env metadata_target md).2).2 =
  (bootstrap env metadata_target md).2.
Proof.
  unfold bootstrap at 1. rewrite purge_bootstrap.
  unfold bootstrap.
  destruct (purge md !! "root.json") as [r0|] eqn:Hroot;
    destruct (purge md !! "1.root.json") as [v0|] eqn:Hv; simpl;
    [by rewrite Hroot, Hv|..];
    destruct (bundled_root env) as [c|] eqn:Hb; simpl;
    repeat first [ rewrite lookup_insert_eq
                 | rewrite lookup_insert_ne by done
                 | rewrite Hroot
                 | rewrite Hv
                 | rewrite insert_insert_eq
                 | progress simpl
                 | match goal with
                   | |- context [urlopen env ?u] => destruct (urlopen env u) eqn:?
                   end ];
    done.
Qed.
End BootstrapProps.

(** ** Update check *)

Lemma append_slash_inj (s1 s2 : string) : s1 +:+ "/" = s2 +:+ "/" → s1 = s2.
Proof.
  revert s2. induction s1 as [|c s1 IH]; intros [|c2 s2]; simpl; try done.
  - intros [= _ H]. by destruct s2.
  - intros [= _ H]. by destruct s1.
  - intros [= -> H]. f_equal. by apply IH.
Qed.

Section CheckFacts.
Variable env : app_env.

Lemma check_for_updates_eq (a : app) :
  check_for_updates env a =
    try_except (query_client env) (λ _, ret None) (set_metadata purge a).
Proof.
  unfold check_for_updates, try_except, try_catch.
  by erewrite bind_Ret by apply clear_mutable_metadata_eq.
Qed.

Lemma query_client_Raise (a : app) e a' :
  client_check env a = (Raise e, a') → query_client env a = (Raise e, a').
Proof. intros H. unfold query_client. by rewrite (bind_Raise _ _ _ _ _ H). Qed.

Lemma query_client_Some (a : app) m a1 :
  client_check env a = (Ret (Some m), a1) →
  query_client env a =
    (Ret (Some m),
     set_latest_meta (Some m)
       (set_target_base_url (target_base_url a1 +:+ version_segment m) a1)).
Proof. intros H. unfold query_client. by rewrite (bind_Ret _ _ _ _ _ H). Qed.

Lemma query_client_inv (a : app) r a' :
  query_client env a = (r, a') →
  match r with
  | Ret (Some m) => ∃ a1, client_check env a = (Ret (Some m), a1)
  | Ret None => ∃ a1, client_check env a = (Ret None, a1)
  | Raise e => client_check env a = (Raise e, a')
  | OutOfFuel => client_check env a = (OutOfFuel, a')
  end.
Proof.
  unfold query_client, bind.
  destruct (client_check env a) as [[[m|]|e|] a1]; simpl; intros [= <- <-]; eauto.
Qed.
End CheckFacts.

(** C4: an [Exception] raised by the client during the check is caught and
    the wrapper returns [None]; no [Exception] ever leaves the wrapper;
    and a descriptor it returns is one the client returned. *)
Theorem check_for_updates_catches_client_errors env a :
  (∀ e a', client_check env (set_metadata purge a) = (Raise e, a') →
           is_Exception e = true →
           check_for_updates env a = (Ret None, a'))
  ∧ (∀ e a', check_for_updates env a = (Raise e, a') → is_Exception e = false)
  ∧ (∀ m a', check_for_updates env a = (Ret (Some m), a') →
             ∃ a1, client_check env (set_metadata purge a) = (Ret (Some m), a1)).
Proof.
  rewrite check_for_updates_eq. unfold try_except, try_catch. split_and!.
  - intros e a' Hraise He. by rewrite (query_client_Raise _ _ _ _ Hraise), He.
  - intros e a'.
    destruct (query_client env (set_metadata purge a)) as [[r|e'|] a1];
      [done| |done].
    destruct (is_Exception e') eqn:He'; [done|]. by intros [= <- <-].
  - intros m a'.
    destruct (query_client env (set_metadata purge a)) as [[r|e'|] a1] eqn:Hq;
      [| |done].
    + intros [= -> <-]. exact (query_client_inv _ _ _ _ Hq).
    + by destruct (is_Exception e').
Qed.

Lemma check_for_updates_catches_client_errors_witness :
  check_for_updates offline_env sample_app =
    (Ret None, set_metadata purge sample_app).
Proof.
  apply (proj1 (check_for_updates_catches_client_errors offline_env sample_app) URLError);
    reflexivity.
Defined.

(** ** Install handover *)

(** C5 (amended): when updater.exe exists in the destination and the
    child can be started, the callback starts it with the arguments
    (own PID, destination, source) and then raises [SystemExit] with
    status 0; the callback returns normally on no path, and the exit
    passes through [download_and_apply_update]. *)
Theorem custom_install_hands_over env src_dir dst_dir a :
  dst_dir ++ ["updater.exe"] ∈ disk a →
  popen_denied env = false →
  custom_install env src_dir dst_dir a =
    (Raise (SystemExit 0),
     add_spawned [StrOfPath (dst_dir ++ ["updater.exe"]); StrOfInt (getpid env);
                  StrOfPath dst_dir; StrOfPath src_dir] a)
  ∧ (∀ b r b', custom_install env src_dir dst_dir b = (r, b') → ∀ x, r ≠ Ret x)
  ∧ (∀ b c b', client_download env (custom_install env) b = (Raise (SystemExit c), b') →
               download_and_apply_update env b = (Raise (SystemExit c), b')).
Proof.
  intros Hupdater Hpopen. split_and!.
  - unfold custom_install. erewrite bind_Ret by reflexivity.
    rewrite bool_decide_eq_true_2 by done. simpl. rewrite Hpopen.
    by erewrite bind_Ret by reflexivity.
  - intros b r b'. unfold custom_install, bind. simpl.
    destruct (bool_decide _); simpl; [|by intros [= <- <-]].
    destruct (popen_denied env); simpl; by intros [= <- <-].
  - intros b c b' Hexit. unfold download_and_apply_update, try_except, try_catch.
    by rewrite (bind_Raise _ _ _ _ _ Hexit).
Qed.

Lemma custom_install_hands_over_witness :
  custom_install handing_env ["state"; "extracted"] ["install"] sample_app =
    (Raise (SystemExit 0),
     add_spawned [StrOfPath ["install"; "updater.exe"]; StrOfInt 4242;
                  StrOfPath ["install"]; StrOfPath ["state"; "extracted"]] sample_app).
Proof.
  apply (custom_install_hands_over handing_env ["state"; "extracted"] ["install"] sample_app);
    [by apply (bool_decide_unpack _) | reflexivity].
Defined.

(** C5, as stated, fails: the status of the handover is not dedicated.
    It is 0, and 0 is also the status with which [update] ends a run in
    which the client's download step returned without calling the install
    callback, so that no Updater was started. *)
Lemma restart_status_not_dedicated : ¬ restart_status_dedicated.
Proof.
  intros H.
  refine (H handing_env ["state"; "extracted"] ["install"] sample_app 0%Z _ _
            idle_env "https://origin/metadata/" "https://origin/targets/" sample_app 0%Z
            (update idle_env "https://origin/metadata/" "https://origin/targets/" sample_app).2
            _ _ eq_refl).
  - by vm_compute.
  - by vm_compute.
  - by vm_compute.
Qed.

(** ** Claims on the check and the bootstrap *)

(** C6 (amended): when the client's check returns a release [m], the
    wrapper returns it with [client._target_base_url] extended by
    ["v" + base_version + "/"], the base version being the one of the
    version the client parsed, and nothing else changed but
    [_latest_meta]; and in [update] the download step starts from the
    state so adjusted.  The publishing side tags a release with "v"
    followed by the version string of its command line; the segment is
    that tag followed by "/" exactly when that string is the release's
    base version, which it is not for a version with a pre, post or dev
    part. *)
Theorem check_for_updates_appends_version_segment env a m a1 :
  client_check env (set_metadata purge a) = (Ret (Some m), a1) →
  let a2 := set_latest_meta (Some m)
              (set_target_base_url (target_base_url a1 +:+ version_segment m) a1) in
  check_for_updates env a = (Ret (Some m), a2)
  ∧ target_base_url a2 = target_base_url a1 +:+ "v" +:+ base_version (version m) +:+ "/"
  ∧ (∀ versao, version_segment m = release_tag versao +:+ "/"
               ↔ base_version (version m) = versao)
  ∧ (∀ metadata_target target_base a0,
       AppUpdater_init env metadata_target target_base a0 = (Ret tt, a) →
       update env metadata_target target_base a0 =
         try_catch (λ e, is_Exception e || is_KeyboardInterrupt e)
                   (update_apply env) (λ _, ret tt) a2).
Proof.
  intros Hcheck a2.
  assert (check_for_updates env a = (Ret (Some m), a2)) as Hwrap.
  { rewrite check_for_updates_eq. unfold try_except, try_catch.
    by rewrite (query_client_Some _ _ _ _ Hcheck). }
  split_and!; [done|done| |].
  - intros versao. unfold version_segment, release_tag. simpl. split.
    + intros [= H]. by apply append_slash_inj.
    + by intros ->.
  - intros metadata_target target_base a0 Hinit.
    unfold update, try_catch.
    rewrite (bind_Ret _ _ _ _ _ Hinit). by rewrite (bind_Ret _ _ _ _ _ Hwrap).
Qed.

Lemma check_for_updates_appends_version_segment_witness :
  check_for_updates handing_env sample_app =
    (Ret (Some sample_release),
     set_latest_meta (Some sample_release)
       (set_target_base_url "https://origin/targets/v1.1.0/" (set_metadata purge sample_app))).
Proof.
  apply (check_for_updates_appends_version_segment handing_env sample_app sample_release
           (set_metadata purge sample_app)).
  reflexivity.
Defined.

(** C6, as stated, fails: for the release published as 1.1.0.post1 the
    publishing side uses the tag v1.1.0.post1, while the check appends
    v1.1.0/ to the base URL. *)
Lemma check_for_updates_segment_is_not_the_tag : ¬ appends_release_tag.
Proof.
  intros H.
  specialize (H post_env sample_app post_release (set_metadata purge sample_app) eq_refl).
  vm_compute in H. discriminate H.
Qed.

Example check_for_updates_post_release :
  target_base_url (check_for_updates post_env sample_app).2 = "https://origin/targets/v1.1.0/"
  ∧ release_tag (public (version post_release)) = "v1.1.0.post1".
Proof. by vm_compute. Qed.

(** C7: whatever the state of the roots and whatever its outcome, the
    bootstrap leaves none of timestamp.json, snapshot.json, targets.json
    behind and behaves as if they had never been there; and in
    [check_for_updates] the client is queried in the directory from which
    exactly these three files have been deleted, every other file being
    as it was. *)
Theorem mutable_metadata_cleared_before_check env metadata_target a :
  (metadata (_initialize_metadata env metadata_target a).2 !! "timestamp.json" = None
   ∧ metadata (_initialize_metadata env metadata_target a).2 !! "snapshot.json" = None
   ∧ metadata (_initialize_metadata env metadata_target a).2 !! "targets.json" = None)
  ∧ _initialize_metadata env metadata_target
      (set_metadata (λ md, delete "targets.json"
                             (delete "snapshot.json" (delete "timestamp.json" md))) a) =
      _initialize_metadata env metadata_target a
  ∧ ∃ b,
      check_for_updates env a = try_except (query_client env) (λ _, ret None) b
      ∧ metadata b !! "timestamp.json" = None
      ∧ metadata b !! "snapshot.json" = None
      ∧ metadata b !! "targets.json" = None
      ∧ (∀ f, f ≠ "timestamp.json" → f ≠ "snapshot.json" → f ≠ "targets.json" →
              metadata b !! f = metadata a !! f)
      ∧ disk b = disk a ∧ target_base_url b = target_base_url a
      ∧ latest_meta b = latest_meta a ∧ spawned b = spawned a.
Proof.
  split_and!.
  - rewrite _initialize_metadata_eq. simpl. apply bootstrap_mutable_gone.
    by apply (bool_decide_unpack _).
  - rewrite _initialize_metadata_eq. simpl. apply bootstrap_mutable_gone.
    by apply (bool_decide_unpack _).
  - rewrite _initialize_metadata_eq. simpl. apply bootstrap_mutable_gone.
    by apply (bool_decide_unpack _).
  - change (_initialize_metadata env metadata_target (set_metadata purge a) =
            _initialize_metadata env metadata_target a).
    rewrite !_initialize_metadata_eq. destruct a as [md dk url lm sp]. simpl.
    unfold bootstrap. by rewrite purge_idemp.
  - exists (set_metadata purge a). split; [apply check_for_updates_eq|].
    cbn [set_metadata metadata disk target_base_url latest_meta spawned].
    split_and!; try done.
    + rewrite lookup_purge. by rewrite decide_True by (by apply (bool_decide_unpack _)).
    + rewrite lookup_purge. by rewrite decide_True by (by apply (bool_decide_unpack _)).
    + rewrite lookup_purge. by rewrite decide_True by (by apply (bool_decide_unpack _)).
    + intros f H1 H2 H3. rewrite lookup_purge. rewrite decide_False; [done|].
      unfold mutable_files. rewrite !not_elem_of_cons.
      split_and!; [done..|apply not_elem_of_nil].
Qed.

(** C8: with root.json and 1.root.json both present the bootstrap returns
    at once and leaves both as they are; and from any state, with the same
    bundle and network, a second run in a row changes nothing that the
    first run left, so both runs end with the same two root files. *)
Theorem bootstrap_idempotent env metadata_target a :
  (is_Some (metadata a !! "root.json") →
   is_Some (metadata a !! "1.root.json") →
   _initialize_metadata env metadata_target a = (Ret tt, set_metadata purge a)
   ∧ metadata (set_metadata purge a) !! "root.json" = metadata a !! "root.json"
   ∧ metadata (set_metadata purge a) !! "1.root.json" = metadata a !! "1.root.json")
  ∧ (_initialize_metadata env metadata_target
       (_initialize_metadata env metadata_target a).2).2 =
    (_initialize_metadata env metadata_target a).2.
Proof.
  split.
  - intros Hroot Hv. rewrite _initialize_metadata_eq.
    rewrite (bootstrap_initialized env metadata_target _ Hroot Hv). simpl.
    split_and!; [done | apply lookup_purge_root | apply lookup_purge_versioned].
  - rewrite !_initialize_metadata_eq. destruct a as [md dk url lm sp]. simpl.
    unfold set_metadata. simpl. by rewrite bootstrap_idemp.
Qed.

Lemma bootstrap_idempotent_witness :
  _initialize_metadata idle_env "https://origin/metadata/" sample_app =
    (Ret tt, set_metadata purge sample_app)
  ∧ metadata (set_metadata purge sample_app) !! "root.json" = Some "pinned root"
  ∧ metadata (set_metadata purge sample_app) !! "1.root.json" = Some "pinned root".
Proof.
  apply (proj1 (bootstrap_idempotent idle_env "https://origin/metadata/" sample_app));
    by eexists.
Defined.

(** The trust anchor survives a bootstrap whenever a bundled root is
    available or the versioned root is present too. *)
Lemma bootstrap_keeps_root env metadata_target (md : gmap string string) :
  is_Some (md !! "root.json") →
  is_Some (bundled_root env) ∨ is_Some (md !! "1.root.json") →
  (bootstrap env metadata_target md).2 !! "root.json" = md !! "root.json".
Proof.
  intros [r Hr] Hcase. unfold bootstrap.
  rewrite lookup_purge_root, lookup_purge_versioned, Hr.
  destruct (md !! "1.root.json") as [v|] eqn:Hv; simpl.
  - by rewrite lookup_purge_root.
  - destruct Hcase as [[c Hc]|[? [=]]]. rewrite Hc. simpl.
    destruct (urlopen env _); simpl; rewrite ?lookup_insert_ne by done;
      by rewrite lookup_purge_root.
Qed.

(** C10: the claim fails on the code.  With root.json pinned, 1.root.json
    missing and no bundled root, the bootstrap takes the remote fallback,
    which downloads both files and overwrites the pinned root.json with
    what the metadata origin serves. *)
Theorem bootstrap_fallback_replaces_root :
  metadata half_pinned_app !! "root.json" = Some "pinned root"
  ∧ (_initialize_metadata idle_env "https://origin/metadata/" half_pinned_app).1 = Ret tt
  ∧ metadata (_initialize_metadata idle_env "https://origin/metadata/" half_pinned_app).2
      !! "root.json" = Some "remote root".
Proof. by vm_compute. Qed.

(* ===================================================================== *)
(** * Further properties of updates.py                                     *)
(* ===================================================================== *)

(** ** Applying twice *)




(** ** What Apply leaves alone *)

Lemma touches_only_ret {A} dst (a : A) : touches_only dst (ret a).
Proof. by intros w r w' [= <- <-]. Qed.

Lemma touches_only_pure {A} dst (f : world → A) : touches_only dst (λ w, (Ret (f w), w)).
Proof. by intros w r w' [= <- <-]. Qed.

Lemma touches_only_emit dst e : touches_only dst (emit e).
Proof. by intros w r w' [= <- <-]. Qed.

Lemma touches_only_bind {A B} dst (m : Py world A) (k : A → Py world B) :
  touches_only dst m → (∀ a, touches_only dst (k a)) → touches_only dst (bind m k).
Proof.
  intros Hm Hk w r w'. unfold bind.
  destruct (m w) as [[a|e|] w1] eqn:E; intros Hr.
  - intros d Hd. rewrite (Hk a _ _ _ Hr) by done. by apply (Hm _ _ _ E).
  - injection Hr as <- <-. by apply (Hm _ _ _ E).
  - injection Hr as <- <-. by apply (Hm _ _ _ E).
Qed.

Lemma touches_only_when dst c m : touches_only dst m → touches_only dst (when c m).
Proof. destruct c; [done|]. intros _. apply touches_only_ret. Qed.

Lemma touches_only_for_each {A} dst (xs : list A) body :
  (∀ x, touches_only dst (body x)) → touches_only dst (for_each xs body).
Proof.
  intros Hb. induction xs as [|x xs IH]; simpl; [apply touches_only_ret|].
  apply touches_only_bind; [apply Hb | by intros _].
Qed.

Lemma touches_only_set_entries dst es : touches_only dst (set_entries dst es).
Proof. intros w r w' [= <- <-] d Hd. simpl. by rewrite lookup_insert_ne. Qed.

Ltac touches_only_leaf :=
  first [ by eapply touches_only_set_entries
        | by simplify_eq ].

Lemma touches_only_unlink dst name : touches_only dst (unlink dst name).
Proof.
  apply touches_only_bind; [apply touches_only_emit|]. intros _.
  fs_only_cases; touches_only_leaf.
Qed.

Lemma touches_only_rmtree env dst name : touches_only dst (rmtree env dst name).
Proof.
  apply touches_only_bind; [apply touches_only_emit|]. intros _.
  fs_only_cases; touches_only_leaf.
Qed.

Lemma touches_only_copy2 sd sname dst dname : touches_only dst (copy2 sd sname dst dname).
Proof.
  apply touches_only_bind; [apply touches_only_emit|]. intros _. unfold write_file.
  fs_only_cases;
    repeat match goal with
           | H : match ?x with _ => _ end = _ |- _ => destruct x as [[]|]; try discriminate H
           end;
    touches_only_leaf.
Qed.

Lemma touches_only_copytree sd sname dst dname : touches_only dst (copytree sd sname dst dname).
Proof.
  apply touches_only_bind; [apply touches_only_emit|]. intros _.
  fs_only_cases; touches_only_leaf.
Qed.

Lemma touches_only_iterdir dst d : touches_only dst (iterdir d).
Proof. unfold iterdir. fs_only_cases; touches_only_leaf. Qed.

Lemma touches_only_copy_item env ext dst name : touches_only dst (copy_item env ext dst name).
Proof.
  unfold copy_item. apply touches_only_bind; [apply touches_only_pure|]. intros present.
  apply touches_only_bind.
  - apply touches_only_when. apply touches_only_bind; [apply touches_only_pure|].
    intros []; [apply touches_only_unlink | apply touches_only_rmtree].
  - intros _. apply touches_only_bind; [apply touches_only_pure|].
    intros []; [apply touches_only_copy2 | apply touches_only_copytree].
Qed.

Lemma touches_only_copy_update env ext dst : touches_only dst (copy_update env ext dst).
Proof.
  unfold copy_update. apply touches_only_bind; [apply touches_only_iterdir|]. intros items.
  apply touches_only_for_each. intros name. apply touches_only_copy_item.
Qed.

(** X2: whatever Apply meets, whatever the host lets it remove and
    however it ends, by returning or by raising half-way, it changes
    nothing outside the destination path: every other place of the
    store, the staged directory included when it is another path, is as
    before. *)
Theorem copy_update_changes_destination_only env ext dst w d :
  d ≠ dst →
  fs (copy_update env ext dst w).2 !! d = fs w !! d.
Proof.
  intros Hd. destruct (copy_update env ext dst w) as [r w'] eqn:Hrun.
  by apply (touches_only_copy_update env ext dst _ _ _ Hrun).
Qed.

Lemma copy_update_changes_destination_only_witness :
  fs (copy_update busy_env "/state/extracted" "/install" busy_world).2 !! "/state/extracted"
    = fs busy_world !! "/state/extracted".
Proof.
  apply (copy_update_changes_destination_only busy_env "/state/extracted" "/install"
           busy_world "/state/extracted"). done.
Defined.

(** ** Edges of Apply *)






Lemma copy2_no_parent sd sname dd dname ses c w :
  fs w !! sd = Some (Dir ses) →
  lookup_entry sname ses = Some (File c) →
  (∀ es, fs w !! dd ≠ Some (Dir es)) →
  ∃ e tr,
    copy2 sd sname dd dname w = (Raise e, World (fs w) (clock w) tr)
    ∧ (e = FileNotFoundError ∧ fs w !! dd = None
       ∨ e = NotADirectoryError ∧ ∃ c', fs w !! dd = Some (File c')).
Proof.
  intros Hs Hn Hd. unfold copy2. erewrite bind_Ret by apply emit_eq.
  unfold stat. cbn [fs]. rewrite Hs, Hn.
  destruct (fs w !! dd) as [[c'|es]|] eqn:E; [|by destruct (Hd es)|]; eauto 10.
Qed.

(** X4: when the destination path is not a directory (missing, or a
    regular file) and the first staged entry is a regular file, Apply
    raises on that entry ([FileNotFoundError] for a missing destination,
    [NotADirectoryError] for a file) and the store is left as it was: the
    destination is not created. *)
Theorem copy_update_into_non_directory env ext dst name c rest w :
  fs w !! ext = Some (Dir ((name, File c) :: rest)) →
  (∀ es, fs w !! dst ≠ Some (Dir es)) →
  fs (copy_update env ext dst w).2 = fs w
  ∧ ((copy_update env ext dst w).1 = Raise FileNotFoundError ∧ fs w !! dst = None
     ∨ (copy_update env ext dst w).1 = Raise NotADirectoryError
       ∧ ∃ c', fs w !! dst = Some (File c')).
Proof.
  intros Hext Hdst.
  assert (lookup_entry name ((name, File c) :: rest) = Some (File c)) as Hx
    by (by rewrite lookup_entry_cons, decide_True).
  assert (stat dst name w = None) as Hnone.
  { unfold stat. destruct (fs w !! dst) as [[|es]|] eqn:E; try done. by destruct (Hdst es). }
  destruct (copy2_no_parent ext name dst name _ c w Hext Hx Hdst) as (e & tr & Hcopy & He).
  assert (copy_item env ext dst name w = (Raise e, World (fs w) (clock w) tr)) as Hitem.
  { unfold copy_item. erewrite bind_Ret by reflexivity.
    rewrite Hnone, bool_decide_eq_false_2 by (by intros [? ?]). unfold when.
    erewrite bind_Ret by reflexivity. erewrite bind_Ret by reflexivity.
    by rewrite (stat_eq _ _ _ _ Hext), Hx. }
  unfold copy_update. erewrite bind_Ret; [|by unfold iterdir; rewrite Hext].
  simpl. rewrite (bind_Raise _ _ _ _ _ Hitem). simpl. split; [done|].
  destruct He as [[-> ?]|[-> ?]]; eauto.
Qed.

Lemma copy_update_into_non_directory_witness :
  fs (copy_update sample_env "/state/extracted" "/missing" sample_world).2 = fs sample_world
  ∧ ((copy_update sample_env "/state/extracted" "/missing" sample_world).1
       = Raise FileNotFoundError
       ∧ fs sample_world !! "/missing" = None
     ∨ (copy_update sample_env "/state/extracted" "/missing" sample_world).1
         = Raise NotADirectoryError
       ∧ ∃ c', fs sample_world !! "/missing" = Some (File c')).
Proof.
  apply (copy_update_into_non_directory sample_env "/state/extracted" "/missing" "a.txt" "new"
           [("sub", Dir [("b.txt", File "b")])] sample_world); [reflexivity|].
  intros es. vm_compute. discriminate.
Defined.

(** ** The Updater as a whole *)

Lemma bind_OutOfFuel {S A B} (m : Py S A) (k : A → Py S B) s s' :
  m s = (OutOfFuel, s') → bind m k s = (OutOfFuel, s').
Proof. unfold bind. by intros ->. Qed.

(** X6: the staged path is only checked to exist, not to be a directory:
    when it is a regular file the Updater passes validation, fails in
    Apply with [NotADirectoryError], exits 1 and leaves the store as
    it found it (the file is not cleaned up). *)
Theorem main_staged_path_is_file env fuel a0 a1 destino extract_dir rest pid c w :
  (21 ≤ fuel)%nat →
  py_int env a1 = Some pid →
  fs w !! extract_dir = Some (File c) →
  ∃ w',
    run_main env fuel (a0 :: a1 :: destino :: extract_dir :: rest) w = (Exited 1, w')
    ∧ fs w' = fs w
    ∧ last (trace w') = Some (clock w', EvPrint (MsgApplyError NotADirectoryError)).
Proof.
  intros Hfuel Hpid Hext. unfold run_main. rewrite (main_eq _ _ _ _ _ _ _ _ Hpid).
  destruct (main_stop_old_spec env fuel pid w Hfuel) as (k & Hk & Hstop & _).
  erewrite bind_Ret by exact Hstop.
  match type of Hstop with _ = (_, ?w1) => set (w1' := w1) in * end.
  assert (fs w1' !! extract_dir = Some (File c)) as Hext' by done.
  pose proof (main_install_present env extract_dir destino w1' (Raise NotADirectoryError)
                (World (fs w1') (clock w1') (trace w1' ++ [(clock w1', EvApply)]))
                (mk_is_Some _ _ Hext')) as Hinst.
  rewrite Hinst.
  - eexists. split_and!; [done|done|]. cbn [trace clock]. by rewrite last_snoc.
  - unfold copy_update, iterdir, bind. cbn [fs]. by rewrite Hext'.
Qed.

Lemma main_staged_path_is_file_witness :
  ∃ w',
    run_main sample_env 21 sample_argv file_staged_world = (Exited 1, w')
    ∧ fs w' = fs file_staged_world
    ∧ last (trace w') = Some (clock w', EvPrint (MsgApplyError NotADirectoryError)).
Proof.
  apply (main_staged_path_is_file sample_env 21 "updater.exe" "42" "/install"
           "/state/extracted" [] 42 "not a directory" file_staged_world);
    [lia | reflexivity | reflexivity].
Defined.

(** X7: cleanup belongs to success only: on every run that does not exit
    0, whatever the arguments and the fuel, no place of the store other
    than the destination path has changed; in particular the staged
    directory is still there, and with too few arguments nothing at all
    has changed. *)
Theorem main_failure_keeps_staged_dir env fuel argv w :
  (run_main env fuel argv w).1 ≠ Exited 0 →
  ((length argv < 4)%nat → fs (run_main env fuel argv w).2 = fs w)
  ∧ (∀ destino d, argv !! 2%nat = Some destino → d ≠ destino →
       fs (run_main env fuel argv w).2 !! d = fs w !! d).
Proof.
  unfold run_main, main. intros Hnot.
  destruct (length argv <? 4)%nat eqn:Hlen.
  { unfold print. erewrite bind_Ret by apply emit_eq. by split. }
  apply Nat.ltb_ge in Hlen. split; [lia|].
  destruct (argv_lookups argv Hlen) as (a0 & a1 & destino & extract_dir & rest & ->).
  revert Hnot. simpl. intros Hnot dst d [= <-] Hd. revert Hnot.
  destruct (py_int env a1) as [pid|]; [|done].
  erewrite !(bind_Ret (ret pid)) by reflexivity.
  destruct (main_stop_old env fuel pid w) as [[[]|e|] w1] eqn:Hstop;
    destruct (main_stop_old_safe _ _ _ _ _ _ Hstop) as [Hfs Hne].
  2:{ by destruct (Hne e). }
  2:{ rewrite !(bind_OutOfFuel _ _ _ _ Hstop). simpl. by rewrite Hfs. }
  rewrite !(bind_Ret _ _ _ _ _ Hstop).
  destruct (fs w1 !! extract_dir) eqn:Hext.
  2:{ rewrite main_install_missing by done. simpl. by rewrite Hfs. }
  destruct (copy_update env extract_dir destino
              (World (fs w1) (clock w1) (trace w1 ++ [(clock w1, EvApply)])))
    as [rc w2] eqn:Hcopy.
  pose proof (main_install_present env extract_dir destino w1 rc w2 (mk_is_Some _ _ Hext) Hcopy)
    as Hinst.
  pose proof (touches_only_copy_update _ _ _ _ _ _ Hcopy) as Hframe.
  destruct rc as [[]|e|]; [|rewrite Hinst|done].
  - rewrite Hinst. simpl. by intros [].
  - simpl. intros _. rewrite Hframe by done. simpl. by rewrite Hfs.
Qed.

Lemma main_failure_keeps_staged_dir_witness :
  ((length argv_no_dest < 4)%nat →
     fs (run_main sample_env 21 argv_no_dest sample_world).2 = fs sample_world)
  ∧ (∀ destino d, argv_no_dest !! 2%nat = Some destino → d ≠ destino →
       fs (run_main sample_env 21 argv_no_dest sample_world).2 !! d = fs sample_world !! d).
Proof.
  apply (main_failure_keeps_staged_dir sample_env 21 argv_no_dest sample_world).
  by vm_compute.
Defined.

(** ** The wait, for any timeout *)

Section WaitAnyTimeout.
Variable env : os_env.



End WaitAnyTimeout.


(* ===================================================================== *)
(** * Further properties of AutoUpdate.py                                  *)
(* ===================================================================== *)

(** ** Trust bootstrap *)

Section BootstrapMore.
Variable env : app_env.
Variable metadata_target : string.

Lemma bootstrap_outcomes (md : gmap string string) :
  (bootstrap env metadata_target md).1 = Ret tt
  ∧ is_Some ((bootstrap env metadata_target md).2 !! "root.json")
  ∧ is_Some ((bootstrap env metadata_target md).2 !! "1.root.json")
  ∨ (bootstrap env metadata_target md).1 = Raise URLError.
Proof.
  unfold bootstrap.
  destruct (purge md !! "root.json") as [r0|] eqn:Hroot;
    destruct (purge md !! "1.root.json") as [v0|] eqn:Hv; simpl;
    [left; by rewrite Hroot, Hv|..];
    destruct (bundled_root env) as [c|]; simpl;
    repeat first [ rewrite lookup_insert_eq
                 | rewrite lookup_insert_ne by done
                 | rewrite Hroot
                 | rewrite Hv
                 | progress simpl
                 | match goal with
                   | |- context [urlopen env ?u] => destruct (urlopen env u) eqn:?
                   end ];
    first [ by right
          | left; split_and!; [done|..];
            repeat first [ rewrite lookup_insert_eq
                         | rewrite lookup_insert_ne by done
                         | rewrite Hroot
                         | rewrite Hv ]; by eauto ].
Qed.

Lemma bootstrap_keeps_versioned (md : gmap string string) :
  is_Some (md !! "1.root.json") →
  is_Some (bundled_root env) ∨ is_Some (md !! "root.json") →
  (bootstrap env metadata_target md).2 !! "1.root.json" = md !! "1.root.json".
Proof.
  intros [v Hv] Hcase. unfold bootstrap.
  rewrite lookup_purge_root, lookup_purge_versioned, Hv.
  destruct (md !! "root.json") as [r|] eqn:Hr; simpl.
  - by rewrite lookup_purge_versioned.
  - destruct Hcase as [[c Hc]|[? [=]]]. rewrite Hc. simpl.
    rewrite lookup_insert_ne, lookup_purge_versioned, Hv by done. simpl.
    by rewrite lookup_insert_ne, lookup_purge_versioned.
Qed.

Lemma bootstrap_from_bundle (md : gmap string string) c :
  bundled_root env = Some c →
  md !! "root.json" = None →
  bootstrap env metadata_target md =
    (Ret tt,
     match md !! "1.root.json" with
     | Some _ => <["root.json" := c]> (purge md)
     | None => <["1.root.json" := c]> (<["root.json" := c]> (purge md))
     end).
Proof.
  intros Hc Hr. unfold bootstrap. rewrite lookup_purge_root, lookup_purge_versioned, Hr, Hc.
  destruct (md !! "1.root.json") as [v|] eqn:Hv; simpl.
  - by rewrite lookup_insert_ne, lookup_purge_versioned, Hv.
  - by rewrite lookup_insert_eq.
Qed.
End BootstrapMore.

(** X9: a bootstrap that returns normally leaves both root.json and
    1.root.json in the metadata directory, whatever was there before,
    whatever the bundle holds and whatever the network answered. *)
Theorem bootstrap_success_has_both_roots env metadata_target a :
  (_initialize_metadata env metadata_target a).1 = Ret tt →
  is_Some (metadata (_initialize_metadata env metadata_target a).2 !! "root.json")
  ∧ is_Some (metadata (_initialize_metadata env metadata_target a).2 !! "1.root.json").
Proof.
  rewrite _initialize_metadata_eq. cbn [fst snd metadata]. intros Hret.
  destruct (bootstrap_outcomes env metadata_target (metadata a)) as [(_ & Hr & Hv)|Hraise];
    [done|]. by rewrite Hraise in Hret.
Qed.

Lemma bootstrap_success_has_both_roots_witness :
  is_Some (metadata (_initialize_metadata idle_env "https://origin/metadata/" empty_app).2
             !! "root.json")
  ∧ is_Some (metadata (_initialize_metadata idle_env "https://origin/metadata/" empty_app).2
               !! "1.root.json").
Proof.
  apply (bootstrap_success_has_both_roots idle_env "https://origin/metadata/" empty_app).
  by vm_compute.
Defined.

(** X10: the bootstrap touches nothing but five files: every other file
    of the metadata directory keeps its content, and the other paths, the
    client's URL, the remembered release and the started processes are as
    before, whatever the outcome. *)
Theorem bootstrap_touches_five_files_only env metadata_target a f :
  f ∉ mutable_files → f ≠ "root.json" → f ≠ "1.root.json" →
  metadata (_initialize_metadata env metadata_target a).2 !! f = metadata a !! f
  ∧ disk (_initialize_metadata env metadata_target a).2 = disk a
  ∧ target_base_url (_initialize_metadata env metadata_target a).2 = target_base_url a
  ∧ latest_meta (_initialize_metadata env metadata_target a).2 = latest_meta a
  ∧ spawned (_initialize_metadata env metadata_target a).2 = spawned a.
Proof.
  intros Hf Hr Hv. rewrite _initialize_metadata_eq. simpl.
  split_and!; [by apply bootstrap_frame|done..].
Qed.

Lemma bootstrap_touches_five_files_only_witness :
  metadata (_initialize_metadata idle_env "https://origin/metadata/" cached_app).2
    !! "2.root.json" = metadata cached_app !! "2.root.json"
  ∧ disk (_initialize_metadata idle_env "https://origin/metadata/" cached_app).2
      = disk cached_app
  ∧ target_base_url (_initialize_metadata idle_env "https://origin/metadata/" cached_app).2
      = target_base_url cached_app
  ∧ latest_meta (_initialize_metadata idle_env "https://origin/metadata/" cached_app).2
      = latest_meta cached_app
  ∧ spawned (_initialize_metadata idle_env "https://origin/metadata/" cached_app).2
      = spawned cached_app.
Proof.
  apply (bootstrap_touches_five_files_only idle_env "https://origin/metadata/" cached_app
           "2.root.json"); [|done|done].
  unfold mutable_files. rewrite !not_elem_of_cons. split_and!; [done..|apply not_elem_of_nil].
Defined.

(** X11: with a bundled root.json and no root.json in the metadata
    directory yet, the bootstrap succeeds without the network: root.json
    becomes the bundled copy, and 1.root.json becomes the bundled copy
    too unless it was already there, in which case it is kept. *)
Theorem bootstrap_from_bundle_needs_no_network env metadata_target a c :
  bundled_root env = Some c →
  metadata a !! "root.json" = None →
  (_initialize_metadata env metadata_target a).1 = Ret tt
  ∧ metadata (_initialize_metadata env metadata_target a).2 !! "root.json" = Some c
  ∧ metadata (_initialize_metadata env metadata_target a).2 !! "1.root.json" =
      match metadata a !! "1.root.json" with
      | Some v => Some v
      | None => Some c
      end.
Proof.
  intros Hc Hr. rewrite _initialize_metadata_eq. simpl.
  rewrite (bootstrap_from_bundle env metadata_target _ c Hc Hr).
  destruct (metadata a !! "1.root.json") as [v|] eqn:Hv; simpl.
  - split_and!; [done|by rewrite lookup_insert_eq|].
    by rewrite lookup_insert_ne, lookup_purge_versioned.
  - split_and!; [done| |by rewrite lookup_insert_eq].
    by rewrite lookup_insert_ne, lookup_insert_eq.
Qed.

Lemma bootstrap_from_bundle_needs_no_network_witness :
  (_initialize_metadata bundled_offline_env "https://origin/metadata/" empty_app).1 = Ret tt
  ∧ metadata (_initialize_metadata bundled_offline_env "https://origin/metadata/" empty_app).2
      !! "root.json" = Some "bundled root"
  ∧ metadata (_initialize_metadata bundled_offline_env "https://origin/metadata/" empty_app).2
      !! "1.root.json" =
      match metadata empty_app !! "1.root.json" with
      | Some v => Some v
      | None => Some "bundled root"
      end.
Proof.
  apply (bootstrap_from_bundle_needs_no_network bundled_offline_env "https://origin/metadata/"
           empty_app "bundled root"); reflexivity.
Defined.

(** X12: a root file that exists survives the bootstrap unchanged whenever
    a bundled root.json is available or the other root file exists too;
    this holds for root.json and for 1.root.json alike. *)
Theorem bootstrap_keeps_existing_roots env metadata_target a :
  is_Some (bundled_root env)
  ∨ (is_Some (metadata a !! "root.json") ∧ is_Some (metadata a !! "1.root.json")) →
  (is_Some (metadata a !! "root.json") →
   metadata (_initialize_metadata env metadata_target a).2 !! "root.json"
     = metadata a !! "root.json")
  ∧ (is_Some (metadata a !! "1.root.json") →
     metadata (_initialize_metadata env metadata_target a).2 !! "1.root.json"
       = metadata a !! "1.root.json").
Proof.
  intros Hcase. rewrite _initialize_metadata_eq. simpl. split; intros Hsome.
  - apply bootstrap_keeps_root; [done|]. destruct Hcase as [?|[_ ?]]; eauto.
  - apply bootstrap_keeps_versioned; [done|]. destruct Hcase as [?|[? _]]; eauto.
Qed.

Lemma bootstrap_keeps_existing_roots_witness :
  (is_Some (metadata half_pinned_app !! "root.json") →
   metadata (_initialize_metadata bundled_offline_env "https://origin/metadata/"
               half_pinned_app).2 !! "root.json"
     = metadata half_pinned_app !! "root.json")
  ∧ (is_Some (metadata half_pinned_app !! "1.root.json") →
     metadata (_initialize_metadata bundled_offline_env "https://origin/metadata/"
                 half_pinned_app).2 !! "1.root.json"
       = metadata half_pinned_app !! "1.root.json").
Proof.
  apply (bootstrap_keeps_existing_roots bundled_offline_env "https://origin/metadata/"
           half_pinned_app). left. by eexists.
Defined.

(** X13: [copy_bundled_root_if_available] answers whether a bundled root
    exists, never changes a file that is already there, and copies
    nothing at all when root.json exists, even if 1.root.json is missing. *)
Theorem copy_bundled_root_never_overwrites env a :
  (copy_bundled_root_if_available env a).1 = Ret (bool_decide (is_Some (bundled_root env)))
  ∧ (is_Some (metadata a !! "root.json") → (copy_bundled_root_if_available env a).2 = a)
  ∧ (∀ f x, metadata a !! f = Some x →
            metadata (copy_bundled_root_if_available env a).2 !! f = Some x).
Proof.
  rewrite copy_bundled_root_eq. destruct (bundled_root env) as [c|]; [|done].
  destruct a as [md dk url lm sp]. unfold set_metadata. cbn [fst snd metadata].
  split_and!; [done| |].
  - intros [r Hr]. by rewrite Hr.
  - intros f x Hf.
    destruct (md !! "root.json") as [r|] eqn:Hr; [done|].
    destruct (md !! "1.root.json") as [v|] eqn:Hv.
    + rewrite lookup_insert_ne; [done|]. intros <-. congruence.
    + rewrite !lookup_insert_ne; [done|intros <-; congruence|intros <-; congruence].
Qed.

Lemma copy_bundled_root_never_overwrites_witness :
  (copy_bundled_root_if_available bundled_offline_env half_pinned_app).2 = half_pinned_app.
Proof.
  apply (proj1 (proj2 (copy_bundled_root_never_overwrites bundled_offline_env half_pinned_app))).
  by eexists.
Defined.

(** ** Update check *)

(** X14: the URL adjustment accumulates.  When two checks in a row each
    find a release and the client itself leaves its base URL alone, the
    second check appends a second segment to the URL that already carries
    the first one. *)
Theorem check_for_updates_twice_appends_twice env a m a1 m' a3 :
  client_check env (set_metadata purge a) = (Ret (Some m), a1) →
  client_check env (set_metadata purge (check_for_updates env a).2) = (Ret (Some m'), a3) →
  target_base_url a3 = target_base_url (check_for_updates env a).2 →
  (check_for_updates env (check_for_updates env a).2).1 = Ret (Some m')
  ∧ target_base_url (check_for_updates env (check_for_updates env a).2).2 =
      (target_base_url a1 +:+ version_segment m) +:+ version_segment m'.
Proof.
  intros H1 H2 Hurl.
  assert (check_for_updates env a =
            (Ret (Some m), set_latest_meta (Some m)
               (set_target_base_url (target_base_url a1 +:+ version_segment m) a1))) as Hfirst.
  { rewrite check_for_updates_eq. unfold try_except, try_catch.
    by rewrite (query_client_Some _ _ _ _ H1). }
  rewrite Hfirst in *. cbn [snd] in *.
  rewrite check_for_updates_eq. unfold try_except, try_catch.
  rewrite (query_client_Some _ _ _ _ H2). simpl. by rewrite Hurl.
Qed.

Lemma check_for_updates_twice_appends_twice_witness :
  (check_for_updates handing_env (check_for_updates handing_env sample_app).2).1
    = Ret (Some sample_release)
  ∧ target_base_url (check_for_updates handing_env (check_for_updates handing_env sample_app).2).2
    = (target_base_url (set_metadata purge sample_app) +:+ version_segment sample_release)
        +:+ version_segment sample_release.
Proof.
  apply (check_for_updates_twice_appends_twice handing_env sample_app sample_release
           (set_metadata purge sample_app) sample_release
           (set_metadata purge (check_for_updates handing_env sample_app).2));
    reflexivity.
Defined.

(** X15: when the client reports no newer release the wrapper returns
    [None], forgets any release remembered before and leaves the client's
    base URL as the client left it. *)
Theorem check_for_updates_no_update env a a1 :
  client_check env (set_metadata purge a) = (Ret None, a1) →
  check_for_updates env a = (Ret None, set_latest_meta None a1)
  ∧ target_base_url (check_for_updates env a).2 = target_base_url a1.
Proof.
  intros Hcheck.
  assert (check_for_updates env a = (Ret None, set_latest_meta None a1)) as ->; [|done].
  rewrite check_for_updates_eq. unfold try_except, try_catch, query_client.
  by rewrite (bind_Ret _ _ _ _ _ Hcheck).
Qed.

Lemma check_for_updates_no_update_witness :
  check_for_updates current_env sample_app
    = (Ret None, set_latest_meta None (set_metadata purge sample_app))
  ∧ target_base_url (check_for_updates current_env sample_app).2
    = target_base_url (set_metadata purge sample_app).
Proof.
  apply (check_for_updates_no_update current_env sample_app (set_metadata purge sample_app)).
  reflexivity.
Defined.

(** ** Install handover *)

Lemma custom_install_cases env src_dir dst_dir a :
  custom_install env src_dir dst_dir a =
    if bool_decide (dst_dir ++ ["updater.exe"] ∈ disk a) then
      if popen_denied env then (Raise PermissionError, a)
      else (Raise (SystemExit 0),
            add_spawned [StrOfPath (dst_dir ++ ["updater.exe"]); StrOfInt (getpid env);
                         StrOfPath dst_dir; StrOfPath src_dir] a)
    else (Raise FileNotFoundError, a).
Proof.
  unfold custom_install. erewrite bind_Ret by reflexivity.
  destruct (bool_decide _); simpl; [|done].
  destruct (popen_denied env); simpl; [done|]. by erewrite bind_Ret by reflexivity.
Qed.

(** X16: the callback ends the process only after it has started the
    Updater.  Every outcome is one of two: a [SystemExit] with status 0
    together with exactly one new child process, or an exception
    ([FileNotFoundError] when updater.exe is missing, the error of Popen
    otherwise) with the state unchanged: no child, no exit. *)
Theorem custom_install_exits_only_after_spawn env src_dir dst_dir a :
  ((custom_install env src_dir dst_dir a).1 = Raise (SystemExit 0)
   ∧ spawned (custom_install env src_dir dst_dir a).2 =
       spawned a ++ [[StrOfPath (dst_dir ++ ["updater.exe"]); StrOfInt (getpid env);
                      StrOfPath dst_dir; StrOfPath src_dir]])
  ∨ ((custom_install env src_dir dst_dir a).2 = a
     ∧ ((custom_install env src_dir dst_dir a).1 = Raise FileNotFoundError
          ∧ dst_dir ++ ["updater.exe"] ∉ disk a
        ∨ (custom_install env src_dir dst_dir a).1 = Raise PermissionError
          ∧ popen_denied env = true)).
Proof.
  rewrite custom_install_cases. case_bool_decide as Hin.
  - destruct (popen_denied env); simpl; [right|left]; eauto.
  - right. simpl. eauto.
Qed.

Lemma download_and_apply_update_cases env a :
  download_and_apply_update env a =
    match client_download env (custom_install env) a with
    | (Ret _, a') => (Ret true, a')
    | (Raise e, a') => if is_Exception e then (Ret false, a') else (Raise e, a')
    | (OutOfFuel, a') => (OutOfFuel, a')
    end.
Proof.
  unfold download_and_apply_update, try_except, try_catch, bind.
  by destruct (client_download env (custom_install env) a) as [[[]|e|] a'].
Qed.

(** X17: [download_and_apply_update] never lets an [Exception] out: it
    answers [True] whenever the client's download step returns, [False]
    whenever that step raises an [Exception], and lets through only what
    is not an [Exception] (the [SystemExit] of the handover). *)
Theorem download_and_apply_update_never_raises_exception env a :
  (∀ a', client_download env (custom_install env) a = (Ret tt, a') →
         download_and_apply_update env a = (Ret true, a'))
  ∧ (∀ e a', client_download env (custom_install env) a = (Raise e, a') →
             is_Exception e = true →
             download_and_apply_update env a = (Ret false, a'))
  ∧ (∀ e a', download_and_apply_update env a = (Raise e, a') →
             is_Exception e = false
             ∧ client_download env (custom_install env) a = (Raise e, a')).
Proof.
  rewrite download_and_apply_update_cases. split_and!.
  - by intros a' ->.
  - by intros e a' -> ->.
  - intros e a'. destruct (client_download env (custom_install env) a) as [[[]|e'|] a1];
      [done| |done].
    destruct (is_Exception e') eqn:He; [done|]. by intros [= <- <-].
Qed.

Lemma download_and_apply_update_never_raises_exception_witness :
  download_and_apply_update idle_env sample_app = (Ret true, sample_app).
Proof.
  apply (proj1 (download_and_apply_update_never_raises_exception idle_env sample_app)).
  reflexivity.
Defined.

(** X18: a missing updater.exe is a recoverable error.  When the client
    passes the staged release to the install callback and lets the
    callback's exception through, the wrapper answers [False]; no process
    has been started and the application is not ended. *)
Theorem download_without_updater_returns_false env a a1 src_dir dst_dir :
  client_download env (custom_install env) a = custom_install env src_dir dst_dir a1 →
  dst_dir ++ ["updater.exe"] ∉ disk a1 →
  download_and_apply_update env a = (Ret false, a1).
Proof.
  intros Hclient Hmissing. rewrite download_and_apply_update_cases, Hclient.
  rewrite custom_install_cases. by rewrite bool_decide_eq_false_2.
Qed.

Lemma download_without_updater_returns_false_witness :
  download_and_apply_update handing_env empty_app = (Ret false, empty_app).
Proof.
  apply (download_without_updater_returns_false handing_env empty_app empty_app
           ["state"; "extracted"] ["install"]); [reflexivity|].
  by apply (bool_decide_unpack _).
Defined.

(** ** The update flow *)

(** X19: the update flow never crashes its host: whatever the bundle, the
    network and the client do, the only exception that can leave [update]
    is a [SystemExit]; every [Exception] and a [KeyboardInterrupt] end in
    a normal return. *)
Theorem update_lets_only_system_exit_out env metadata_target target_base a e a' :
  update env metadata_target target_base a = (Raise e, a') →
  ∃ code, e = SystemExit code.
Proof.
  unfold update, try_catch.
  destruct (bind _ _ a) as [[[]|e0|] a0]; [done| |done].
  destruct e0; simpl; try done. intros [= <- <-]. eauto.
Qed.

Lemma update_lets_only_system_exit_out_witness : ∃ code, SystemExit 0 = SystemExit code.
Proof.
  apply (update_lets_only_system_exit_out handing_env "https://origin/metadata/"
           "https://origin/targets/" sample_app (SystemExit 0)
           (update handing_env "https://origin/metadata/" "https://origin/targets/"
              sample_app).2).
  by vm_compute.
Defined.

(** X20: a failed bootstrap ends the update flow for this run and nothing
    more: [update] returns normally in the state the bootstrap left, the
    client is neither built nor queried, and nothing is started. *)
Theorem update_survives_bootstrap_failure env metadata_target target_base a :
  (_initialize_metadata env metadata_target a).1 = Raise URLError →
  update env metadata_target target_base a =
    (Ret tt, (_initialize_metadata env metadata_target a).2)
  ∧ spawned (update env metadata_target target_base a).2 = spawned a
  ∧ target_base_url (update env metadata_target target_base a).2 = target_base_url a.
Proof.
  intros Hfail.
  destruct (_initialize_metadata env metadata_target a) as [r a1] eqn:Hinit.
  simpl in Hfail. subst r.
  assert (update env metadata_target target_base a = (Ret tt, a1)) as ->.
  { assert (AppUpdater_init env metadata_target target_base a = (Raise URLError, a1)) as Hi
      by (unfold AppUpdater_init; by rewrite (bind_Raise _ _ _ _ _ Hinit)).
    unfold update, try_catch. by rewrite (bind_Raise _ _ _ _ _ Hi). }
  pose proof (_initialize_metadata_eq env metadata_target a) as Heq.
  rewrite Hinit in Heq. injection Heq as _ ->. done.
Qed.

Lemma update_survives_bootstrap_failure_witness :
  update bundled_offline_env "https://origin/metadata/" "https://origin/targets/"
         half_pinned_app =
    (Ret tt, (_initialize_metadata bundled_offline_env "https://origin/metadata/"
                half_pinned_app).2)
  ∧ spawned (update bundled_offline_env "https://origin/metadata/" "https://origin/targets/"
               half_pinned_app).2 = spawned half_pinned_app
  ∧ target_base_url (update bundled_offline_env "https://origin/metadata/"
                       "https://origin/targets/" half_pinned_app).2
    = target_base_url half_pinned_app.
Proof.
  apply (update_survives_bootstrap_failure bundled_offline_env "https://origin/metadata/"
           "https://origin/targets/" half_pinned_app).
  reflexivity.
Defined.

(** X21: no update, no installation: when the client reports nothing
    newer, [update] returns normally right after the check; the download
    step and the install callback are not run. *)
Theorem update_without_release_stops_after_check env metadata_target target_base a a1 a2 :
  AppUpdater_init env metadata_target target_base a = (Ret tt, a1) →
  client_check env (set_metadata purge a1) = (Ret None, a2) →
  update env metadata_target target_base a = (Ret tt, set_latest_meta None a2).
Proof.
  intros Hinit Hcheck. unfold update, try_catch.
  rewrite (bind_Ret _ _ _ _ _ Hinit).
  assert (check_for_updates env a1 = (Ret None, set_latest_meta None a2)) as Hwrap.
  { rewrite check_for_updates_eq. unfold try_except, try_catch, query_client.
    by rewrite (bind_Ret _ _ _ _ _ Hcheck). }
  by rewrite (bind_Ret _ _ _ _ _ Hwrap).
Qed.

Lemma update_without_release_stops_after_check_witness :
  update current_env "https://origin/metadata/" "https://origin/targets/" sample_app =
    (Ret tt, set_latest_meta None (set_metadata purge sample_app)).
Proof.
  apply (update_without_release_stops_after_check current_env "https://origin/metadata/"
           "https://origin/targets/" sample_app (set_metadata purge sample_app)
           (set_metadata purge sample_app)); reflexivity.
Defined.

(** X22: when a release was found and the client's download step returns
    without the handover having ended the process, [update] asks for a
    key press and then exits with status 0; if [input()] fails instead,
    the failure is caught and [update] returns normally: the application
    goes on running. *)
Theorem update_after_download_returns env metadata_target target_base a a1 m a2 a3 :
  AppUpdater_init env metadata_target target_base a = (Ret tt, a1) →
  check_for_updates env a1 = (Ret (Some m), a2) →
  client_download env (custom_install env) a2 = (Ret tt, a3) →
  update env metadata_target target_base a =
    (match input_line env with
     | Some _ => Raise (SystemExit 0)
     | None => Ret tt
     end, a3).
Proof.
  intros Hinit Hcheck Hdown. unfold update, try_catch.
  rewrite (bind_Ret _ _ _ _ _ Hinit), (bind_Ret _ _ _ _ _ Hcheck).
  unfold update_apply.
  assert (download_and_apply_update env a2 = (Ret true, a3)) as Hd.
  { by rewrite download_and_apply_update_cases, Hdown. }
  rewrite (bind_Ret _ _ _ _ _ Hd). unfold when.
  destruct (input_line env); by unfold bind, ret, raise.
Qed.

Lemma update_after_download_returns_witness :
  update mute_env "https://origin/metadata/" "https://origin/targets/" sample_app =
    (match input_line mute_env with
     | Some _ => Raise (SystemExit 0)
     | None => Ret tt
     end,
     (check_for_updates mute_env
        (AppUpdater_init mute_env "https://origin/metadata/" "https://origin/targets/"
           sample_app).2).2).
Proof.
  apply (update_after_download_returns mute_env "https://origin/metadata/"
           "https://origin/targets/" sample_app
           (AppUpdater_init mute_env "https://origin/metadata/" "https://origin/targets/"
              sample_app).2
           sample_release
           (check_for_updates mute_env
              (AppUpdater_init mute_env "https://origin/metadata/" "https://origin/targets/"
                 sample_app).2).2
           (check_for_updates mute_env
              (AppUpdater_init mute_env "https://origin/metadata/" "https://origin/targets/"
                 sample_app).2).2); by vm_compute.
Defined.

(* ===================================================================== *)
(** * Properties of the runtime paths                                      *)
(* ===================================================================== *)

Lemma elem_of_prefixes_self (p : pypath) : p ≠ [] → p ∈ prefixes p.
Proof.
  induction p as [|x p IH]; [done|]. intros _. simpl.
  destruct p as [|y p]; [by left|]. right.
  apply list_elem_of_fmap_2. by apply IH.
Qed.

Lemma mkdir_p_Ret p t r t' :
  mkdir_p p t = (r, t') →
  r = Ret tt → p ≠ [] →
  p ∈ dirs t' ∧ files t' = files t ∧ dirs t ⊆ dirs t'.
Proof.
  unfold mkdir_p. intros Hrun -> Hp. repeat case_decide; simplify_eq; simpl.
  - done.
  - split_and!; [|done|apply union_subseteq_l].
    apply elem_of_union_r, elem_of_list_to_set. by apply elem_of_prefixes_self.
Qed.

Lemma mkdir_p_existing p t : p ∈ dirs t → mkdir_p p t = (Ret tt, t).
Proof. intros Hp. unfold mkdir_p. by rewrite decide_True. Qed.

(** X23: [ensure_dirs] names three different directories directly under
    the user base; when it returns they all exist, no regular file has
    been touched and nothing that existed has been removed; and calling
    it again returns the same three paths and changes nothing. *)
Theorem ensure_dirs_creates_three_distinct_dirs user_base t m d e t' :
  ensure_dirs user_base t = (Ret (m, d, e), t') →
  m = user_base ++ ["metadata"] ∧ d = user_base ++ ["downloads"]
  ∧ e = user_base ++ ["extracted"]
  ∧ m ≠ d ∧ m ≠ e ∧ d ≠ e
  ∧ m ∈ dirs t' ∧ d ∈ dirs t' ∧ e ∈ dirs t'
  ∧ files t' = files t ∧ dirs t ⊆ dirs t'
  ∧ ensure_dirs user_base t' = (Ret (m, d, e), t').
Proof.
  unfold ensure_dirs. simpl. unfold bind at 1 2 3 4.
  destruct (mkdir_p (user_base ++ ["metadata"]) t) as [[[]|?|] t1] eqn:H1; try done.
  destruct (mkdir_p (user_base ++ ["downloads"]) t1) as [[[]|?|] t2] eqn:H2; try done.
  destruct (mkdir_p (user_base ++ ["extracted"]) t2) as [[[]|?|] t3] eqn:H3; try done.
  simpl. intros [= <- <- <- <-].
  destruct (mkdir_p_Ret _ _ _ _ H1 eq_refl) as (Hm & Hf1 & Hs1); [by destruct user_base|].
  destruct (mkdir_p_Ret _ _ _ _ H2 eq_refl) as (Hd & Hf2 & Hs2); [by destruct user_base|].
  destruct (mkdir_p_Ret _ _ _ _ H3 eq_refl) as (He & Hf3 & Hs3); [by destruct user_base|].
  split_and!; try done.
  - by intros ?%app_inv_head.
  - by intros ?%app_inv_head.
  - by intros ?%app_inv_head.
  - by apply Hs3, Hs2.
  - by apply Hs3.
  - congruence.
  - by do 2 (etrans; [eassumption|]).
  - unfold bind.
    rewrite (mkdir_p_existing (user_base ++ ["metadata"])) by (by apply Hs3, Hs2).
    rewrite (mkdir_p_existing (user_base ++ ["downloads"])) by (by apply Hs3).
    by rewrite (mkdir_p_existing (user_base ++ ["extracted"])).
Qed.

Lemma ensure_dirs_creates_three_distinct_dirs_witness :
  let r := ensure_dirs ["/"; "home"; "u"; ".local"; "share"; "AppTeste"] bare_tree in
  let m := ["/"; "home"; "u"; ".local"; "share"; "AppTeste"; "metadata"] in
  let d := ["/"; "home"; "u"; ".local"; "share"; "AppTeste"; "downloads"] in
  let e := ["/"; "home"; "u"; ".local"; "share"; "AppTeste"; "extracted"] in
  m = ["/"; "home"; "u"; ".local"; "share"; "AppTeste"] ++ ["metadata"]
  ∧ d = ["/"; "home"; "u"; ".local"; "share"; "AppTeste"] ++ ["downloads"]
  ∧ e = ["/"; "home"; "u"; ".local"; "share"; "AppTeste"] ++ ["extracted"]
  ∧ m ≠ d ∧ m ≠ e ∧ d ≠ e
  ∧ m ∈ dirs r.2 ∧ d ∈ dirs r.2 ∧ e ∈ dirs r.2
  ∧ files r.2 = files bare_tree ∧ dirs bare_tree ⊆ dirs r.2
  ∧ ensure_dirs ["/"; "home"; "u"; ".local"; "share"; "AppTeste"] r.2 = (Ret (m, d, e), r.2).
Proof.
  apply (ensure_dirs_creates_three_distinct_dirs
           ["/"; "home"; "u"; ".local"; "share"; "AppTeste"] bare_tree).
  by vm_compute.
Defined.

Lemma mkdir_p_again p t t' : mkdir_p p t = (Ret tt, t') → mkdir_p p t' = (Ret tt, t').
Proof.
  intros Hmk. destruct p as [|x p].
  - unfold mkdir_p in *.
    destruct (decide ([] ∈ dirs t)) as [Hin|Hnin].
    + injection Hmk as <-. by rewrite decide_True.
    + destruct (decide ([] ∈ files t)) as [|Hnf]; [done|].
      destruct (decide (Exists (λ q, q ∈ files t) (prefixes []))) as [|Hne]; [done|].
      injection Hmk as <-. cbn [dirs files prefixes list_to_set].
      rewrite (right_id_L ∅ (∪)). rewrite decide_False by done.
      rewrite decide_False by done. rewrite decide_False by done.
      by rewrite (right_id_L ∅ (∪)).
  - apply mkdir_p_existing.
    by destruct (mkdir_p_Ret (x :: p) t _ t' Hmk eq_refl) as (? & _).
Qed.

Lemma get_runtime_paths_inv rt app_name t i u t' :
  get_runtime_paths rt app_name t = (Ret (i, u), t') →
  i = parent (if rt_frozen rt then rt_executable rt else rt_file rt)
  ∧ mkdir_p u t = (Ret tt, t')
  ∧ ∃ base, u = rt_join rt base app_name
      ∧ (rt_os_nt rt = true →
         rt_localappdata rt = None ∨ rt_localappdata rt = Some "" →
         base = rt_home rt ++ ["AppData"; "Local"]).
Proof.
  unfold get_runtime_paths, bind, ret.
  match goal with |- context [mkdir_p ?p t] => set (ub := p) end.
  destruct (mkdir_p ub t) as [[[]|?|] t1] eqn:Hmk; intros [= <- <- <-].
  split_and!; [done..|]. subst ub.
  destruct (rt_os_nt rt).
  - eexists; split; [done|]. intros _ [->| ->]; [done|]. by rewrite decide_True.
  - destruct (rt_darwin rt); eexists; (split; [reflexivity|done]).
Qed.

(** X24: when [get_runtime_paths] returns, the writable base exists as a
    directory, no regular file has been touched and nothing has been
    removed; the base is the platform's data directory joined with the
    application's name as pathlib joins it, so it ends in that name when
    the name is a plain one; on Windows an empty LOCALAPPDATA counts as
    an unset one, the data directory then being AppData/Local under the
    home directory; the install directory does not depend on the
    application's name; and a second call gives the same answer without
    changing anything. *)
Theorem get_runtime_paths_creates_user_base rt app_name t i u t' :
  get_runtime_paths rt app_name t = (Ret (i, u), t') →
  (u ≠ [] → u ∈ dirs t') ∧ files t' = files t ∧ dirs t ⊆ dirs t'
  ∧ (∃ base, u = rt_join rt base app_name)
  ∧ ((∀ base, rt_join rt base app_name = base ++ [app_name]) → last u = Some app_name)
  ∧ (rt_os_nt rt = true →
     rt_localappdata rt = None ∨ rt_localappdata rt = Some "" →
     u = rt_join rt (rt_home rt ++ ["AppData"; "Local"]) app_name)
  ∧ (∀ other t0 i0 u0 t0',
       get_runtime_paths rt other t0 = (Ret (i0, u0), t0') → i0 = i)
  ∧ get_runtime_paths rt app_name t' = (Ret (i, u), t').
Proof.
  intros Hrun.
  destruct (get_runtime_paths_inv _ _ _ _ _ _ Hrun) as (Hi & Hmk & base & Hu & Hnt).
  assert (files t' = files t ∧ dirs t ⊆ dirs t') as [Hf Hs].
  { destruct (decide (u = [])) as [->|Hne].
    - revert Hmk. unfold mkdir_p. repeat case_decide; intros [= <-]; try done.
      split; [done|]. apply union_subseteq_l.
    - by destruct (mkdir_p_Ret _ _ _ _ Hmk eq_refl Hne) as (_ & ? & ?). }
  split_and!; try done.
  - intros Hne. by destruct (mkdir_p_Ret _ _ _ _ Hmk eq_refl Hne).
  - by exists base.
  - intros Hplain. rewrite Hu, Hplain. by rewrite last_snoc.
  - intros Hos Hla. by rewrite Hu, (Hnt Hos Hla).
  - intros other t0 i0 u0 t0' Hrun0.
    destruct (get_runtime_paths_inv _ _ _ _ _ _ Hrun0) as (Hi0 & _). congruence.
  - revert Hrun. unfold get_runtime_paths, bind, ret.
    match goal with |- context [mkdir_p ?p t] => set (ub := p) end.
    destruct (mkdir_p ub t) as [[[]|?|] t1] eqn:Hmk'; intros [= <- <- <-].
    by rewrite (mkdir_p_again ub t t1).
Qed.

Lemma get_runtime_paths_creates_user_base_witness :
  let t := Tree {[ ["C:\"] ]} ∅ in
  let r := get_runtime_paths windows_rt "AppTeste" t in
  let u := ["C:\"; "Users"; "u"; "AppData"; "Local"; "AppTeste"] in
  let i := ["C:\"; "Program Files"; "App"] in
  (u ≠ [] → u ∈ dirs r.2) ∧ files r.2 = files t ∧ dirs t ⊆ dirs r.2
  ∧ (∃ base, u = rt_join windows_rt base "AppTeste")
  ∧ ((∀ base, rt_join windows_rt base "AppTeste" = base ++ ["AppTeste"]) →
     last u = Some "AppTeste")
  ∧ (rt_os_nt windows_rt = true →
     rt_localappdata windows_rt = None ∨ rt_localappdata windows_rt = Some "" →
     u = rt_join windows_rt (rt_home windows_rt ++ ["AppData"; "Local"]) "AppTeste")
  ∧ (∀ other t0 i0 u0 t0',
       get_runtime_paths windows_rt other t0 = (Ret (i0, u0), t0') → i0 = i)
  ∧ get_runtime_paths windows_rt "AppTeste" r.2 = (Ret (i, u), r.2).
Proof.
  intros t r u i.
  apply (get_runtime_paths_creates_user_base windows_rt "AppTeste" t i u r.2).
  by vm_compute.
Defined.

(* ===================================================================== *)
(** * Properties of repo_init.py                                          *)
(* ===================================================================== *)

Lemma repo_main_enough_arguments env a0 c a2 a3 rest p :
  RepoInit.main env (a0 :: c :: a2 :: a3 :: rest) p =
    RepoInit.main_dispatch env (a0 :: c :: a2 :: a3 :: rest) (RepoInit.str_lower env c)
      (if bool_decide (RepoInit.str_lower env c = "init" ∨ RepoInit.str_lower env c = "compile")
       then RepoInit.Publisher (Some a2) (RepoInit.cwd p) (RepoInit.out p)
       else RepoInit.Publisher (Some a3) (RepoInit.cwd p) (RepoInit.out p)).
Proof.
  unfold RepoInit.main, RepoInit.main_app_name. cbn [length Nat.ltb Nat.leb].
  unfold bind at 1. cbn.
  unfold bind at 1. by case_bool_decide.
Qed.

(** X25: with too few arguments the script does nothing but complain:
    fewer than three arguments in all, or fewer than four when the
    command is not init or compile, end in exit status 1 with one
    message printed; the application's name is not set, the working
    directory is untouched and no command is run. *)
Theorem repo_init_main_too_few_arguments env argv p :
  (length argv < 3)%nat
  ∨ ((length argv < 4)%nat
     ∧ ∀ a1, argv !! 1%nat = Some a1 →
             RepoInit.str_lower env a1 ≠ "init" ∧ RepoInit.str_lower env a1 ≠ "compile") →
  ∃ m, RepoInit.main env argv p =
         (Raise (SystemExit 1),
          RepoInit.Publisher (RepoInit.APP_NAME p) (RepoInit.cwd p) (RepoInit.out p ++ [m])).
Proof.
  intros Hargs. unfold RepoInit.main.
  destruct argv as [|a0 [|a1 argv]]; [by eexists..|].
  cbn [length Nat.ltb Nat.leb]. unfold bind at 1. cbn.
  unfold RepoInit.main_app_name, bind at 1.
  case_bool_decide as Hcmd.
  - destruct Hargs as [Hlen|[_ Hne]].
    + destruct argv; [by eexists|simpl in Hlen; lia].
    + destruct (Hne a1 eq_refl). by destruct Hcmd.
  - assert (length argv < 2)%nat as Hlen by (destruct Hargs as [?|[? _]]; simpl in *; lia).
    destruct argv as [|a2 [|a3 argv]]; [by eexists..|simpl in Hlen; lia].
Qed.

Lemma repo_init_main_too_few_arguments_witness :
  ∃ m, RepoInit.main failing_add_env ["repo_init.py"; "FULL"; "1.0.5"] fresh_publisher =
         (Raise (SystemExit 1),
          RepoInit.Publisher (RepoInit.APP_NAME fresh_publisher) (RepoInit.cwd fresh_publisher)
                             (RepoInit.out fresh_publisher ++ [m])).
Proof.
  apply (repo_init_main_too_few_arguments failing_add_env ["repo_init.py"; "FULL"; "1.0.5"]).
  right. split; [simpl; lia|]. intros a1 [= <-]. by vm_compute.
Defined.

(** X26: a failed repository step is fatal for full but not for add.
    When the bundle is built and [adicionar_versao] answers [False], the
    command add returns normally, so the process ends with status 0,
    while the command full exits with status 1; in both cases the
    repository step got the tag v<version> and no publishing
    instructions are printed. *)
Theorem repo_init_main_add_and_full_differ_on_failure env a0 c versao name rest p b p2 p3 :
  RepoInit.empacotar_app env versao
    (RepoInit.Publisher (Some name) (RepoInit.cwd p) (RepoInit.out p)) = (Ret (Some b), p2) →
  RepoInit.adicionar_versao env versao b (Some (release_tag versao)) p2 = (Ret false, p3) →
  (RepoInit.str_lower env c = "add" →
   RepoInit.main env (a0 :: c :: versao :: name :: rest) p = (Ret tt, p3))
  ∧ (RepoInit.str_lower env c = "full" →
     RepoInit.main env (a0 :: c :: versao :: name :: rest) p = (Raise (SystemExit 1), p3)).
Proof.
  intros Hpack Hadd. rewrite repo_main_enough_arguments.
  split; intros ->; rewrite bool_decide_false by (by intros [|]);
    unfold RepoInit.main_dispatch; rewrite !decide_False, decide_True by done;
    unfold bind, RepoInit.argv_at, ret; cbn; rewrite Hpack, Hadd; done.
Qed.

Lemma repo_init_main_add_and_full_differ_on_failure_witness :
  let p3 := RepoInit.Publisher (Some "test") (Tree ∅ ∅) [] in
  RepoInit.main failing_add_env ["repo_init.py"; "Add"; "1.0.5"; "test"] fresh_publisher
    = (Ret tt, p3)
  ∧ RepoInit.main failing_add_env ["repo_init.py"; "FULL"; "1.0.5"; "test"] fresh_publisher
    = (Raise (SystemExit 1), p3).
Proof.
  intros p3. split.
  - refine (proj1 (repo_init_main_add_and_full_differ_on_failure failing_add_env
             "repo_init.py" "Add" "1.0.5" "test" [] fresh_publisher ["temp_bundle_1.0.5"]
             p3 p3 _ _) _); by vm_compute.
  - refine (proj2 (repo_init_main_add_and_full_differ_on_failure failing_add_env
             "repo_init.py" "FULL" "1.0.5" "test" [] fresh_publisher ["temp_bundle_1.0.5"]
             p3 p3 _ _) _); by vm_compute.
Defined.

(** X27: a command the script does not know is not an error.  With at
    least four arguments it takes the fourth as the application's name,
    prints that the command is unknown and returns normally, so the
    process ends with status 0. *)
Theorem repo_init_main_unknown_command env a0 c a2 a3 rest p :
  RepoInit.str_lower env c ∉ ["init"; "compile"; "pack"; "add"; "full"] →
  RepoInit.main env (a0 :: c :: a2 :: a3 :: rest) p =
    (Ret tt, RepoInit.Publisher (Some a3) (RepoInit.cwd p)
               (RepoInit.out p ++ [RepoInit.MsgUnknown (RepoInit.str_lower env c)])).
Proof.
  intros Hcmd. rewrite repo_main_enough_arguments.
  rewrite !not_elem_of_cons in Hcmd. destruct Hcmd as (? & ? & ? & ? & ? & _).
  rewrite bool_decide_false by (by intros [|]).
  unfold RepoInit.main_dispatch. by rewrite !decide_False by done.
Qed.

Lemma repo_init_main_unknown_command_witness :
  RepoInit.main no_dist_env ["repo_init.py"; "publish"; "1.0.5"; "test"] fresh_publisher =
    (Ret tt, RepoInit.Publisher (Some "test") (RepoInit.cwd fresh_publisher)
               (RepoInit.out fresh_publisher
                  ++ [RepoInit.MsgUnknown (RepoInit.str_lower no_dist_env "publish")])).
Proof.
  apply (repo_init_main_unknown_command no_dist_env).
  apply (bool_decide_unpack _). by vm_compute.
Defined.

(** X28: when no bundle can be built ([empacotar_app] answers [None]) the
    command pack still returns normally, so the process ends with status
    0, while add and full exit with status 1 without running the
    repository step. *)
Theorem repo_init_main_without_bundle env a0 c versao name rest p p2 :
  RepoInit.empacotar_app env versao
    (RepoInit.Publisher (Some name) (RepoInit.cwd p) (RepoInit.out p)) = (Ret None, p2) →
  (RepoInit.str_lower env c = "pack" →
   RepoInit.main env (a0 :: c :: versao :: name :: rest) p = (Ret tt, p2))
  ∧ (RepoInit.str_lower env c = "add" ∨ RepoInit.str_lower env c = "full" →
     RepoInit.main env (a0 :: c :: versao :: name :: rest) p = (Raise (SystemExit 1), p2)).
Proof.
  intros Hpack. rewrite repo_main_enough_arguments.
  split; [intros ->|intros [->| ->]]; rewrite bool_decide_false by (by intros [|]);
    unfold RepoInit.main_dispatch; rewrite !decide_False, decide_True by done;
    unfold bind, RepoInit.argv_at, ret; cbn; by rewrite Hpack.
Qed.

Lemma repo_init_main_without_bundle_witness :
  let p2 := RepoInit.Publisher (Some "test") (Tree ∅ ∅) [] in
  RepoInit.main no_dist_env ["repo_init.py"; "pack"; "1.0.5"; "test"] fresh_publisher
    = (Ret tt, p2)
  ∧ RepoInit.main no_dist_env ["repo_init.py"; "full"; "1.0.5"; "test"] fresh_publisher
    = (Raise (SystemExit 1), p2).
Proof.
  intros p2. split.
  - refine (proj1 (repo_init_main_without_bundle no_dist_env
             "repo_init.py" "pack" "1.0.5" "test" [] fresh_publisher p2 _) _); by vm_compute.
  - refine (proj2 (repo_init_main_without_bundle no_dist_env
             "repo_init.py" "full" "1.0.5" "test" [] fresh_publisher p2 _) _).
    + by vm_compute.
    + right. by vm_compute.
Defined.
